(** * Chore tracker: a shallow embedding of [app.py] and [models.py]

    The three SQLAlchemy models become records, a table becomes the list of
    its rows in row-id order, and a view function becomes a computation in a
    small state-and-exception monad whose state holds the ORM session's view
    of the database, the committed database, the Flask session, the flash
    queue and the log of database operations. *)

From stdpp Require Import gmap strings list pretty sorting.
From Stdlib Require Import Ascii SpecFloat.

Open Scope Z_scope.
Open Scope string_scope.
Open Scope list_scope.

(** ** models.py *)

(** [db.Date]: a calendar day, as its proleptic ordinal. *)
Abbreviation date := Z.

(** [db.Float], a Python [float]: an IEEE 754 binary64 value. *)
Definition float := spec_float.

Module User.
Record t := mk {
  id : Z;
  username : string;
  password_hash : string
}.
End User.

Module Chore.
Record t := mk {
  id : Z;
  name : string;
  value : float
}.
End Chore.

Module UserChoreStatus.
Record t := mk {
  id : Z;
  user_id : Z;
  chore_id : Z;
  date : date;
  prepared : bool;
  verified : bool;
  completed : bool
}.

(** The three assignments [status.prepared = ...], [status.verified = ...],
    [status.completed = ...] on one row. *)
Definition set_flags (p v c : bool) (s : t) : t :=
  mk (id s) (user_id s) (chore_id s) (date s) p v c.

(** The columns named by [filter_by(user_id=, chore_id=, date=)]. *)
Definition key (s : t) : Z * Z * Z := (user_id s, chore_id s, date s).
End UserChoreStatus.

(** ** Python strings

    A [str] is modelled by a [string] whose characters are the code points
    below 256. *)

(** [str.isspace] on one character of that range:
    TAB..CR, FS..US, SPACE, NEL and NBSP. *)
Definition isspace (a : ascii) : bool :=
  let n := N_of_ascii a in
  ((9 <=? n) && (n <=? 13) || (28 <=? n) && (n <=? 32)
   || (n =? 133) || (n =? 160))%N.

Fixpoint lstrip (s : string) : string :=
  match s with
  | String a r => if isspace a then lstrip r else s
  | EmptyString => EmptyString
  end.

Definition rstrip (s : string) : string :=
  String.rev (lstrip (String.rev s)).

(** [s.strip()] *)
Definition strip (s : string) : string := rstrip (lstrip s).

(** Truth value of a [str]: [bool(s)], [not s]. *)
Definition str_truthy (s : string) : bool :=
  match s with EmptyString => false | _ => true end.

(** [bool(x)] for [x] either [None] or a [str]. *)
Definition py_bool (x : option string) : bool :=
  match x with None => false | Some s => str_truthy s end.

(** ** The request

    [request.form] is a multi-dict: an ordered list of (name, value) pairs
    in which [get] returns the first value of a name. *)

Inductive Method := GET | POST.

Definition Form := list (string * string).

Fixpoint form_lookup (f : Form) (k : string) : option string :=
  match f with
  | [] => None
  | (k', v) :: r => if decide (k' = k) then Some v else form_lookup r k
  end.

(** [request.form.get(k)] *)
Definition form_get (f : Form) (k : string) : option string := form_lookup f k.

(** [request.form.get(k, default)] *)
Definition form_get_default (f : Form) (k d : string) : string :=
  default d (form_lookup f k).

(** What a view reads from its surroundings: the request, the clock
    ([datetime.date.today()]) and the randomness [generate_password_hash]
    draws its salt from. *)
Record Request := mkRequest {
  method : Method;
  form : Form;
  today : date;
  salt : string
}.

(** ** The database *)

Inductive Table := TUser | TChore | TStatus.

(** One statement sent to the database, or one unit-of-work operation on the
    ORM session. *)
Inductive DbOp :=
| SELECT (t : Table)
| INSERT (t : Table)
| UPDATE (t : Table)
| DELETE (t : Table)
| COMMIT.

(** A table is the list of its rows in the order a full scan returns them,
    which for these tables is row-id order: rows are only ever appended with
    a row id above all others, or removed. *)
Record DB := mkDB {
  users : list User.t;
  chores : list Chore.t;
  statuses : list UserChoreStatus.t
}.

Definition empty_db : DB := mkDB [] [] [].

(** The id SQLite gives to a row inserted without one: 1 in an empty table,
    otherwise one more than the largest id in use. *)
Definition next_rowid (ids : list Z) : Z :=
  match ids with
  | [] => 1
  | i :: r => 1 + foldr Z.max i r
  end.

(** The integers SQLite stores and accepts as parameters: 64 bits, signed.
    Binding any other [int] raises [OverflowError]. *)
Definition sqlite_int (i : Z) : bool :=
  ((- 2 ^ 63 <=? i) && (i <=? 2 ^ 63 - 1))%Z.

(** What the column [value] (a REAL, NOT NULL) holds after a [float] is
    written to it: a NaN is bound as NULL, which the column refuses; a
    zero of either sign is kept as the integer 0 and read back as 0.0;
    every other value is read back as it was written. *)
Definition sqlite_real (v : float) : option float :=
  match v with
  | S754_nan => None
  | S754_zero _ => Some (S754_zero false)
  | _ => Some v
  end.

(** ** The monad of view functions *)

(** The state a view function runs in.  [db] is the database as the ORM
    session sees it (pending changes included, since queries autoflush);
    [committed] is what [db.session.commit()] last made durable and what the
    next request finds.  [session] is Flask's [session] dict, [flashes] the
    messages queued by [flash], [oplog] the database operations performed so
    far, latest last. *)
Record Ctx := mkCtx {
  db : DB;
  committed : DB;
  session : gmap string Z;
  flashes : list string;
  oplog : list DbOp
}.

Inductive Exn :=
| AttributeError   (* attribute access on [None] *)
| KeyError         (* subscript of a dict by a missing key *)
| OverflowError    (* an [int] that SQLite cannot take as a parameter *)
| IntegrityError   (* a statement refused by a constraint of the schema *)
| HTTPNotFound.    (* raised by [get_or_404] *)

Inductive Res (A : Type) :=
| Ok (a : A)
| Raise (e : Exn).
Arguments Ok {A} a.
Arguments Raise {A} e.

Definition M (A : Type) : Type := Ctx → Res A * Ctx.

#[global] Instance M_ret : MRet M := λ A a c, (Ok a, c).
#[global] Instance M_bind : MBind M := λ A B f m c,
  match m c with
  | (Ok a, c') => f a c'
  | (Raise e, c') => (Raise e, c')
  end.

Definition raise {A} (e : Exn) : M A := λ c, (Raise e, c).

Definition get_ctx : M Ctx := λ c, (Ok c, c).

Definition log_op (o : DbOp) : M unit := λ c,
  (Ok (), mkCtx (db c) (committed c) (session c) (flashes c) (oplog c ++ [o])).

Definition put_db (d : DB) : M unit := λ c,
  (Ok (), mkCtx d (committed c) (session c) (flashes c) (oplog c)).

(** [for x in l: body(x)] *)
Fixpoint for_each {A} (l : list A) (body : A → M unit) : M unit :=
  match l with
  | [] => mret ()
  | x :: r => body x ;; for_each r body
  end.

(** A loop that threads a local variable of type [S]. *)
Fixpoint for_fold {A S} (l : list A) (body : S → A → M S) (s : S) : M S :=
  match l with
  | [] => mret s
  | x :: r => s' ← body s x; for_fold r body s'
  end.

(** ** Flask: session, flash, responses *)

(** [k in session] *)
Definition session_contains (k : string) : M bool := λ c,
  (Ok (bool_decide (is_Some (session c !! k))), c).

(** [session[k]] *)
Definition session_getitem (k : string) : M Z := λ c,
  match session c !! k with
  | Some v => (Ok v, c)
  | None => (Raise KeyError, c)
  end.

(** [session[k] = v] *)
Definition session_setitem (k : string) (v : Z) : M unit := λ c,
  (Ok (), mkCtx (db c) (committed c) (<[k := v]> (session c)) (flashes c) (oplog c)).

(** [session.clear()] *)
Definition session_clear : M unit := λ c,
  (Ok (), mkCtx (db c) (committed c) ∅ (flashes c) (oplog c)).

(** [flash(msg)].  Flask keeps the queue of flashed messages in the session
    cookie under a key of its own; here the queue is a component apart, and
    [session] holds the keys the application itself reads and writes. *)
Definition flash (msg : string) : M unit := λ c,
  (Ok (), mkCtx (db c) (committed c) (session c) (flashes c ++ [msg]) (oplog c)).

(** The view functions, by endpoint name. *)
Inductive Endpoint :=
| ep_register | ep_login | ep_logout | ep_dashboard | ep_add_chore | ep_delete_chore.

(** [url_for(name)]: the endpoint of that name. *)
Definition url_for (e : Endpoint) : Endpoint := e.

(** The status object the dashboard template gets for a chore: a row of the
    table, or an object built by the constructor and never added to the ORM
    session. *)
Inductive StatusObj :=
| Persistent (row : UserChoreStatus.t)
| Transient (user_id chore_id : Z) (d : date).

Inductive Page :=
| register_html
| login_html
| dashboard_html (user : option User.t) (chores : list Chore.t)
                 (statuses : gmap Z StatusObj) (today : date)
| add_chore_html (chores : list Chore.t).

Inductive Response :=
| Redirect302 (location : Endpoint)
| Rendered (page : Page)
| NotFound404
| MethodNotAllowed405
| InternalServerError500.

Definition redirect (e : Endpoint) : Response := Redirect302 e.
Definition render_template (p : Page) : Response := Rendered p.

(** ** SQLAlchemy: queries and unit of work

    An ORM object is referred to by the position of its row in the table, so
    that attribute assignments reach the row the query returned. *)

(** [User.query.filter_by(username=name).first()] *)
Definition User_query_filter_by_username_first (name : string) : M (option User.t) :=
  log_op (SELECT TUser) ;;
  c ← get_ctx;
  mret (snd <$> list_find (λ u, User.username u = name) (users (db c))).

(** [User.query.get(i)] *)
Definition User_query_get (i : Z) : M (option User.t) :=
  log_op (SELECT TUser) ;;
  c ← get_ctx;
  mret (snd <$> list_find (λ u, User.id u = i) (users (db c))).

(** [Chore.query.all()] *)
Definition Chore_query_all : M (list Chore.t) :=
  log_op (SELECT TChore) ;;
  c ← get_ctx;
  mret (chores (db c)).

(** [Chore.query.get_or_404(i)].  An [i] outside SQLite's integers cannot
    be bound to the query, which then raises [OverflowError] instead of
    finding nothing.  The ids in a table are integers SQLite stored, so
    that such an [i] is the id of no row: the bound is looked at where no
    row is found. *)
Definition Chore_query_get_or_404 (i : Z) : M (nat * Chore.t) :=
  log_op (SELECT TChore) ;;
  c ← get_ctx;
  match list_find (λ ch, Chore.id ch = i) (chores (db c)) with
  | Some r => mret r
  | None => if sqlite_int i then raise HTTPNotFound else raise OverflowError
  end.

(** [UserChoreStatus.query.filter_by(user_id=u, chore_id=ch, date=d).first()] *)
Definition UserChoreStatus_query_filter_by_first (u ch : Z) (d : date)
  : M (option (nat * UserChoreStatus.t)) :=
  log_op (SELECT TStatus) ;;
  c ← get_ctx;
  mret (list_find (λ s, UserChoreStatus.key s = (u, ch, d)) (statuses (db c))).

(** [db.session.add(User(username=.., password_hash=..))] *)
Definition db_session_add_user (username password_hash : string) : M unit :=
  log_op (INSERT TUser) ;;
  c ← get_ctx;
  let d := db c in
  let row := User.mk (next_rowid (User.id <$> users d)) username password_hash in
  put_db (mkDB (users d ++ [row]) (chores d) (statuses d)).

(** [db.session.add(Chore(name=.., value=..))], with the INSERT that the
    flush of the following [commit] sends for it (the view does nothing in
    between).  The INSERT of a NaN value violates NOT NULL and raises
    [IntegrityError]: nothing is written and the commit is not reached.
    Otherwise the row holds what SQLite keeps of the value. *)
Definition db_session_add_chore (name : string) (value : float) : M unit :=
  log_op (INSERT TChore) ;;
  match sqlite_real value with
  | None => raise IntegrityError
  | Some stored =>
      c ← get_ctx;
      let d := db c in
      let row := Chore.mk (next_rowid (Chore.id <$> chores d)) name stored in
      put_db (mkDB (users d) (chores d ++ [row]) (statuses d))
  end.

(** [status = UserChoreStatus(user_id=u, chore_id=ch, date=d);
    db.session.add(status)]: the flags start from the column default
    [False]; the result refers to the new row. *)
Definition db_session_add_status (u ch : Z) (d : date) : M nat :=
  log_op (INSERT TStatus) ;;
  c ← get_ctx;
  let b := db c in
  let row := UserChoreStatus.mk (next_rowid (UserChoreStatus.id <$> statuses b))
               u ch d false false false in
  put_db (mkDB (users b) (chores b) (statuses b ++ [row])) ;;
  mret (length (statuses b)).

(** [status.prepared = p; status.verified = v; status.completed = c] *)
Definition status_setattr (h : nat) (p v cm : bool) : M unit :=
  log_op (UPDATE TStatus) ;;
  c ← get_ctx;
  let b := db c in
  put_db (mkDB (users b) (chores b)
            (alter (UserChoreStatus.set_flags p v cm) h (statuses b))).

(** [db.session.delete(chore)] for the chore at position [h]: the
    relationship [Chore.statuses] has [cascade="all, delete-orphan"], so the
    rows whose [chore_id] is the chore's go with it. *)
Definition db_session_delete_chore (h : nat) (ch : Chore.t) : M unit :=
  log_op (SELECT TStatus) ;;
  log_op (DELETE TStatus) ;;
  log_op (DELETE TChore) ;;
  c ← get_ctx;
  let b := db c in
  put_db (mkDB (users b) (delete h (chores b))
            (filter (λ s, UserChoreStatus.chore_id s ≠ Chore.id ch) (statuses b))).

(** [db.session.commit()].  The statements of the unit of work are
    modelled where the view adds, changes or deletes; the only one the
    schema can refuse, the INSERT of a chore without a storable value,
    fails there, so that a commit that is reached succeeds. *)
Definition db_session_commit : M unit := λ c,
  (Ok (), mkCtx (db c) (db c) (session c) (flashes c) (oplog c ++ [COMMIT])).

(** [user.id] for [user] the result of [User.query.get]: [None] has no
    attribute [id]. *)
Definition user_dot_id (user : option User.t) : M Z :=
  match user with
  | Some u => mret (User.id u)
  | None => raise AttributeError
  end.

(** ** app.py *)

(** The URL rules.  [<int:chore_id>] matches any run of decimal digits and
    hands the view the number it reads, however large: what SQLite makes of
    a number past its integers is said at [Chore_query_get_or_404]. *)
Inductive Route :=
| route_register        (* /register *)
| route_login           (* /login *)
| route_logout          (* /logout *)
| route_index           (* / *)
| route_dashboard       (* /dashboard *)
| route_add_chore       (* /add_chore *)
| route_delete_chore (chore_id : N).   (* /delete_chore/<int:chore_id> *)

(** What one request leaves behind. *)
Record Outcome := mkOutcome {
  response : Response;
  db_after : DB;
  session_after : gmap string Z;
  flashed : list string;
  db_ops : list DbOp
}.

Section App.

(** [float(s)] of the Python runtime; [None] stands for [ValueError]. *)
Variable float_of_str : string → option float.

(** [werkzeug.security]: [generate_password_hash] with the salt it draws
    made an argument (salt first, then password), and
    [check_password_hash pwhash password]. *)
Variable generate_password_hash : string → string → string.
Variable check_password_hash : string → string → bool.

(** The decorator [login_required]. *)
Definition login_required (view_func : M Response) : M Response :=
  logged_in ← session_contains "user_id";
  if negb logged_in then
    mret (redirect (url_for ep_login))
  else view_func.

Definition register (req : Request) : M Response :=
  match method req with
  | POST =>
      let username := strip (form_get_default (form req) "username" "") in
      let password := form_get_default (form req) "password" "" in
      if negb (str_truthy username) || negb (str_truthy password) then
        flash "Both username and password are required." ;;
        mret (redirect (url_for ep_register))
      else
        existing ← User_query_filter_by_username_first username;
        match existing with
        | Some _ =>
            flash "Username is already taken." ;;
            mret (redirect (url_for ep_register))
        | None =>
            let password_hash := generate_password_hash (salt req) password in
            db_session_add_user username password_hash ;;
            db_session_commit ;;
            flash "Registration successful. Please log in." ;;
            mret (redirect (url_for ep_login))
        end
  | GET => mret (render_template register_html)
  end.

Definition login (req : Request) : M Response :=
  match method req with
  | POST =>
      let username := strip (form_get_default (form req) "username" "") in
      let password := form_get_default (form req) "password" "" in
      user ← User_query_filter_by_username_first username;
      match user with
      | Some u =>
          if check_password_hash (User.password_hash u) password then
            session_setitem "user_id" (User.id u) ;;
            flash "Logged in successfully." ;;
            mret (redirect (url_for ep_dashboard))
          else
            flash "Invalid username or password." ;;
            mret (redirect (url_for ep_login))
      | None =>
          flash "Invalid username or password." ;;
          mret (redirect (url_for ep_login))
      end
  | GET => mret (render_template login_html)
  end.

Definition logout : M Response :=
  session_clear ;;
  flash "You have been logged out." ;;
  mret (redirect (url_for ep_login)).

(** The name of a checkbox: [f"prepared_{chore.id}"] and its siblings. *)
Definition field (prefix : string) (chore_id : Z) : string :=
  prefix +:+ pretty chore_id.

(** Body of the [for chore in Chore.query.all()] loop of the POST branch. *)
Definition dashboard_update (req : Request) (user : option User.t)
    (chore : Chore.t) : M unit :=
  let prepared := py_bool (form_get (form req) (field "prepared_" (Chore.id chore))) in
  let verified := py_bool (form_get (form req) (field "verified_" (Chore.id chore))) in
  let completed := py_bool (form_get (form req) (field "completed_" (Chore.id chore))) in
  uid ← user_dot_id user;
  status ← UserChoreStatus_query_filter_by_first uid (Chore.id chore) (today req);
  h ← match status with
      | Some (h, _) => mret h
      | None => db_session_add_status uid (Chore.id chore) (today req)
      end;
  status_setattr h prepared verified completed.

(** Body of the loop of the GET branch; [statuses] is the dict built up. *)
Definition dashboard_collect (req : Request) (user : option User.t)
    (statuses : gmap Z StatusObj) (chore : Chore.t) : M (gmap Z StatusObj) :=
  uid ← user_dot_id user;
  status ← UserChoreStatus_query_filter_by_first uid (Chore.id chore) (today req);
  mret (<[Chore.id chore :=
            match status with
            | Some (_, row) => Persistent row
            | None => Transient uid (Chore.id chore) (today req)
            end]> statuses).

(** The view function [dashboard], before decoration. *)
Definition dashboard_view (req : Request) : M Response :=
  uid ← session_getitem "user_id";
  user ← User_query_get uid;
  match method req with
  | POST =>
      all ← Chore_query_all;
      for_each all (dashboard_update req user) ;;
      db_session_commit ;;
      flash "Chore statuses updated." ;;
      mret (redirect (url_for ep_dashboard))
  | GET =>
      chores ← Chore_query_all;
      statuses ← for_fold chores (dashboard_collect req user) ∅;
      mret (render_template (dashboard_html user chores statuses (today req)))
  end.

Definition dashboard (req : Request) : M Response :=
  login_required (dashboard_view req).

Definition add_chore_view (req : Request) : M Response :=
  match method req with
  | POST =>
      let name := strip (form_get_default (form req) "name" "") in
      let value := strip (form_get_default (form req) "value" "") in
      match float_of_str value with
      | None =>
          flash "Please enter a valid value for the chore." ;;
          mret (redirect (url_for ep_add_chore))
      | Some value_num =>
          if negb (str_truthy name) then
            flash "Chore name is required." ;;
            mret (redirect (url_for ep_add_chore))
          else
            db_session_add_chore name value_num ;;
            db_session_commit ;;
            flash "Chore added successfully." ;;
            mret (redirect (url_for ep_add_chore))
      end
  | GET =>
      chores ← Chore_query_all;
      mret (render_template (add_chore_html chores))
  end.

Definition add_chore (req : Request) : M Response :=
  login_required (add_chore_view req).

Definition delete_chore_view (chore_id : Z) : M Response :=
  '(h, chore) ← Chore_query_get_or_404 chore_id;
  db_session_delete_chore h chore ;;
  db_session_commit ;;
  flash ("Deleted chore '" +:+ Chore.name chore +:+ "'.") ;;
  mret (redirect (url_for ep_add_chore)).

Definition delete_chore (chore_id : Z) : M Response :=
  login_required (delete_chore_view chore_id).

(** *** Routing and request handling *)

(** A rule without [methods=] answers GET only. *)
Definition dispatch (rt : Route) (req : Request) : M Response :=
  match rt, method req with
  | route_register, _ => register req
  | route_login, _ => login req
  | route_logout, GET => logout
  | route_index, _ => dashboard req
  | route_dashboard, _ => dashboard req
  | route_add_chore, _ => add_chore req
  | route_delete_chore i, GET => delete_chore (Z.of_N i)
  | _, POST => mret MethodNotAllowed405
  end.

(** Serve one request: run the view in a fresh ORM session over database
    [d] with the client's session [s]; an [HTTPNotFound] becomes the 404
    response, any other exception the 500 response; changes that were not
    committed are dropped with the ORM session. *)
Definition serve (rt : Route) (req : Request) (s : gmap string Z) (d : DB)
  : Outcome :=
  let '(r, c) := dispatch rt req (mkCtx d d s [] []) in
  mkOutcome
    match r with
    | Ok resp => resp
    | Raise HTTPNotFound => NotFound404
    | Raise _ => InternalServerError500
    end
    (committed c) (session c) (flashes c) (oplog c).

(** The databases the application can produce: starting from the empty
    database, requests are served one after the other, each to any route,
    with any method, form, clock value and salt, from any client session. *)
Inductive reachable : DB → Prop :=
| reachable_empty : reachable empty_db
| reachable_serve d rt req s :
    reachable d → reachable (db_after (serve rt req s d)).

End App.

(** ** Notions used in the statements *)

(** The three flags the POST branch of [dashboard] computes for a chore. *)
Definition submitted (f : Form) (chore_id : Z) : bool * bool * bool :=
  (py_bool (form_get f (field "prepared_" chore_id)),
   py_bool (form_get f (field "verified_" chore_id)),
   py_bool (form_get f (field "completed_" chore_id))).

(** The flags of a row. *)
Definition flags (s : UserChoreStatus.t) : bool * bool * bool :=
  (UserChoreStatus.prepared s, UserChoreStatus.verified s,
   UserChoreStatus.completed s).

(** [first_row u ch d l]: position and contents of the row that
    [filter_by(user_id=u, chore_id=ch, date=d).first()] finds in [l]. *)
Definition first_row (u ch : Z) (d : date) (l : list UserChoreStatus.t)
  : option (nat * UserChoreStatus.t) :=
  list_find (λ s, UserChoreStatus.key s = (u, ch, d)) l.

(** How many rows of [l] are for user [u], chore [ch] and day [d]. *)
Definition count_rows (u ch : Z) (d : date) (l : list UserChoreStatus.t) : nat :=
  length (filter (λ s, UserChoreStatus.key s = (u, ch, d)) l).

(** One round of the update loop, on the status table alone. *)
Definition upsert (u ch : Z) (d : date) (fl : bool * bool * bool)
    (l : list UserChoreStatus.t) : list UserChoreStatus.t :=
  match first_row u ch d l with
  | Some (h, _) =>
      alter (UserChoreStatus.set_flags fl.1.1 fl.1.2 fl.2) h l
  | None =>
      l ++ [UserChoreStatus.mk (next_rowid (UserChoreStatus.id <$> l))
              u ch d fl.1.1 fl.1.2 fl.2]
  end.

(** The whole update loop, on the status table alone. *)
Definition upsert_all (u : Z) (d : date) (f : Form) (cs : list Chore.t)
    (l : list UserChoreStatus.t) : list UserChoreStatus.t :=
  foldl (λ acc c, upsert u (Chore.id c) d (submitted f (Chore.id c)) acc) l cs.

(** A form field counts as present when the form has a value for its name,
    whatever the value. *)
Definition present (f : Form) (k : string) : bool :=
  bool_decide (is_Some (form_get f k)).

(** An operation that only reads. *)
Definition is_read (o : DbOp) : bool :=
  match o with SELECT _ => true | _ => false end.

(** At most one status row per (user, chore, day). *)
Definition status_unique (d : DB) : Prop :=
  NoDup (UserChoreStatus.key <$> statuses d).

(** Both databases of a running view satisfy [status_unique]. *)
Definition ctx_unique (c : Ctx) : Prop :=
  status_unique (db c) ∧ status_unique (committed c).

(** A computation that keeps [ctx_unique], whatever it returns or raises. *)
Definition keeps_unique {A} (m : M A) : Prop :=
  ∀ c, ctx_unique c → ctx_unique (m c).2.

(** The context in which [serve] starts a view. *)
Definition start (s : gmap string Z) (d : DB) : Ctx := mkCtx d d s [] [].

(** A computation that leaves both databases as they are and adds nothing
    but reads to the log. *)
Definition read_only {A} (m : M A) : Prop :=
  ∀ c, db (m c).2 = db c
       ∧ committed (m c).2 = committed c
       ∧ (Forall (λ o, is_read o = true) (oplog c) →
          Forall (λ o, is_read o = true) (oplog (m c).2)).

(** The object the GET branch of [dashboard] puts in [statuses] for a
    chore: [status or UserChoreStatus(user_id=.., chore_id=.., date=..)]. *)
Definition status_object (u : Z) (d : date) (l : list UserChoreStatus.t)
    (chore_id : Z) : StatusObj :=
  match first_row u chore_id d l with
  | Some (_, row) => Persistent row
  | None => Transient u chore_id d
  end.

(** The dict the GET loop builds, from [acc]. *)
Definition collect_all (u : Z) (d : date) (l : list UserChoreStatus.t)
    (cs : list Chore.t) (acc : gmap Z StatusObj) : gmap Z StatusObj :=
  foldl (λ m c, <[Chore.id c := status_object u d l (Chore.id c)]> m) acc cs.

(** ** Further notions: what a request can do to the database *)

(** [User.__repr__]: [f"<User {self.username}>"]. *)
Definition User_repr (u : User.t) : string :=
  "<User " +:+ User.username u +:+ ">".

(** The row ids of a table, in scan order: increasing and above 0. *)
Definition ids_ok (ids : list Z) : Prop :=
  StronglySorted Z.lt ids ∧ Forall (λ i, 0 < i) ids.

(** The ways one request can leave the database: untouched, with one more
    user of a fresh non-empty name, with one more chore of a non-empty
    name, without one chore and the status rows of its id, or with the
    update loop run for an existing user over all chores. *)
Inductive db_step (d : DB) : DB → Prop :=
| step_none : db_step d d
| step_register name pwhash :
    name ≠ "" →
    strip name = name →
    (∀ u, u ∈ users d → User.username u ≠ name) →
    db_step d
      (mkDB (users d ++ [User.mk (next_rowid (User.id <$> users d)) name pwhash])
         (chores d) (statuses d))
| step_add_chore name value :
    name ≠ "" →
    db_step d
      (mkDB (users d)
         (chores d ++ [Chore.mk (next_rowid (Chore.id <$> chores d)) name value])
         (statuses d))
| step_delete_chore i h c :
    list_find (λ ch, Chore.id ch = i) (chores d) = Some (h, c) →
    db_step d
      (mkDB (users d) (delete h (chores d))
         (filter (λ s, UserChoreStatus.chore_id s ≠ Chore.id c) (statuses d)))
| step_dashboard u day f :
    u ∈ users d →
    db_step d
      (mkDB (users d) (chores d)
         (upsert_all (User.id u) day f (chores d) (statuses d))).

(** What the schema of [models.py] promises and the views maintain: primary
    keys, the unique non-empty username, the non-empty chore name, and the
    two foreign keys of a status row. *)
Record wf_db (d : DB) : Prop := mk_wf_db {
  wf_user_ids : ids_ok (User.id <$> users d);
  wf_usernames_unique : NoDup (User.username <$> users d);
  wf_usernames_nonempty : Forall (λ u, User.username u ≠ "") (users d);
  wf_usernames_stripped :
    Forall (λ u, strip (User.username u) = User.username u) (users d);
  wf_chore_ids : ids_ok (Chore.id <$> chores d);
  wf_chore_names : Forall (λ c, Chore.name c ≠ "") (chores d);
  wf_status_ids : ids_ok (UserChoreStatus.id <$> statuses d);
  wf_status_user :
    Forall (λ s, UserChoreStatus.user_id s ∈ User.id <$> users d) (statuses d);
  wf_status_chore :
    Forall (λ s, UserChoreStatus.chore_id s ∈ Chore.id <$> chores d)
      (statuses d)
}.

(** The rows of a status table that are not for user [u] on day [d]. *)
Definition other_rows (u : Z) (d : date) (l : list UserChoreStatus.t)
  : list UserChoreStatus.t :=
  filter (λ s, (UserChoreStatus.user_id s, UserChoreStatus.date s) ≠ (u, d)) l.

(** ** An instance of the runtime functions, and sample data

    Stand-ins for [float] and [werkzeug.security] on which the model can be
    evaluated. *)

Fixpoint digits_value (s : string) (acc : N) : option N :=
  match s with
  | EmptyString => Some acc
  | String a r =>
      let n := N_of_ascii a in
      if ((48 <=? n) && (n <=? 57))%N
      then digits_value r (10 * acc + (n - 48))%N
      else None
  end.

(** [float] on the strings made of decimal digits only; this instance
    accepts no other string. *)
Definition float_of_digits (s : string) : option float :=
  match s with
  | EmptyString => None
  | _ => (λ n, binary_normalize 53 1024 (Z.of_N n) 0 false) <$> digits_value s 0%N
  end.

Fixpoint after_dollar (s : string) : string :=
  match s with
  | EmptyString => EmptyString
  | String a r => if decide (a = "$"%char) then r else after_dollar r
  end.

(** A transparent "hash": the salt, a dollar sign, the password. *)
Definition demo_generate_password_hash (salt password : string) : string :=
  salt +:+ "$" +:+ password.

Definition demo_check_password_hash (pwhash password : string) : bool :=
  bool_decide (after_dollar pwhash = password).

Definition demo_serve : Route → Request → gmap string Z → DB → Outcome :=
  serve float_of_digits demo_generate_password_hash demo_check_password_hash.

Definition alice : User.t := User.mk 1 "alice" "s1$wonderland".
Definition bob : User.t := User.mk 2 "bob" "s2$builder".

Definition dishes : Chore.t := Chore.mk 1 "dishes" (S754_finite false 5 (-1)).
Definition laundry : Chore.t := Chore.mk 2 "laundry" (S754_finite false 1 1).

(** Alice's row for the dishes on day 100, fully ticked. *)
Definition alice_dishes : UserChoreStatus.t :=
  UserChoreStatus.mk 1 1 1 100 true true true.

Definition bob_laundry : UserChoreStatus.t :=
  UserChoreStatus.mk 2 2 2 100 true false false.

Definition sample_db : DB :=
  mkDB [alice; bob] [dishes; laundry] [alice_dishes; bob_laundry].

(** The session cookie of a client logged in as Alice. *)
Definition alice_session : gmap string Z := {["user_id" := 1]}.

(** Sample requests.  On day 101 nobody has a row yet. *)
Definition get_page : Request := mkRequest GET [] 101 "".

(** Alice ticks "prepared" for the dishes and submits nothing for the
    laundry. *)
Definition tick_dishes : Request :=
  mkRequest POST [("prepared_1", "on")] 100 "".

(** The field for "prepared" of the dishes is submitted, with an empty
    value. *)
Definition blank_tick : Request :=
  mkRequest POST [("prepared_1", "")] 101 "".

Definition login_alice : Request :=
  mkRequest POST [("username", " alice "); ("password", "wonderland")] 101 "".

Definition register_alice : Request :=
  mkRequest POST [("username", "alice"); ("password", "rabbit")] 101 "s9".

Definition register_carol : Request :=
  mkRequest POST [("username", " carol "); ("password", "x")] 101 "s3".

Definition add_sweeping : Request :=
  mkRequest POST [("name", "sweeping"); ("value", "3")] 101 "".

Definition add_bad_value : Request :=
  mkRequest POST [("name", "sweeping"); ("value", "abc")] 101 "".

(** A database built by the application alone: Carol registers, a chore is
    added, and the dashboard form is posted on day 101 and again, for day
    100, with another form. *)
Definition history_db : DB :=
  let d1 := db_after (demo_serve route_register register_carol ∅ empty_db) in
  let d2 := db_after (demo_serve route_add_chore add_sweeping alice_session d1) in
  let d3 := db_after (demo_serve route_dashboard blank_tick alice_session d2) in
  db_after (demo_serve route_dashboard tick_dishes alice_session d3).

(** More sample data. *)

(** The identity as password hash: it verifies exactly what it hashed. *)
Definition plain_generate_password_hash (salt password : string) : string :=
  password.

Definition plain_check_password_hash (pwhash password : string) : bool :=
  bool_decide (pwhash = password).

Definition plain_serve : Route → Request → gmap string Z → DB → Outcome :=
  serve float_of_digits plain_generate_password_hash plain_check_password_hash.

Definition get_page_100 : Request := mkRequest GET [] 100 "".

Definition register_blank : Request :=
  mkRequest POST [("username", "   "); ("password", "pw")] 101 "".

Definition login_carol : Request :=
  mkRequest POST [("username", "carol"); ("password", "x")] 101 "".

Definition login_carol_spaced : Request :=
  mkRequest POST [("username", "carol  "); ("password", "x")] 102 "".

Definition add_no_name : Request :=
  mkRequest POST [("name", "  "); ("value", "3")] 101 "".

Definition carol : User.t := User.mk 1 "carol" "s3$x".


(** [float] on the digit strings and on "nan", which Python's [float]
    reads as a NaN. *)
Definition float_of_digits_or_nan (s : string) : option float :=
  if decide (s = "nan") then Some S754_nan else float_of_digits s.

Definition add_nan_value : Request :=
  mkRequest POST [("name", "sweeping"); ("value", "nan")] 101 "".

(** The least number that the URL converter takes and SQLite does not. *)
Definition huge_id : N := (2 ^ 63)%N.

(** * Properties *)

(** ** Lists: [list_find], [alter] and [filter] *)

Section list_facts.
Context {A : Type} (P : A → Prop) `{!∀ x, Decision (P x)}.

(** Changing one element by a function that [P] cannot tell from the
    identity leaves the position found by [list_find] where it was. *)
Lemma list_find_alter_invariant (f : A → A) (h : nat) (l : list A) :
  (∀ x, P (f x) ↔ P x) →
  list_find P (alter f h l)
  = (λ p, (p.1, if decide (p.1 = h) then f p.2 else p.2)) <$> list_find P l.
Proof.
  intros Hf. revert h. induction l as [|x l IH]; intros h; [done|].
  destruct h as [|h]; csimpl.
  - destruct (decide (P x)) as [Hx|Hx].
    + rewrite decide_True by (by apply Hf). done.
    + rewrite decide_False by (by rewrite Hf).
      by destruct (list_find P l) as [[i y]|].
  - destruct (decide (P x)) as [Hx|Hx]; csimpl; [done|].
    rewrite IH. destruct (list_find P l) as [[i y]|]; [|done]. csimpl.
    do 2 f_equal. repeat case_decide; (done || lia).
Qed.

Lemma list_find_snoc (l : list A) (x : A) :
  list_find P (l ++ [x])
  = match list_find P l with
    | Some r => Some r
    | None => if decide (P x) then Some (length l, x) else None
    end.
Proof.
  destruct (list_find P l) as [[i y]|] eqn:E.
  - by apply list_find_app_l.
  - rewrite list_find_app_r by done. csimpl. by case_decide.
Qed.

Lemma filter_length_pos (l : list A) (i : nat) (x : A) :
  list_find P l = Some (i, x) → (0 < length (filter P l))%nat.
Proof.
  intros (Hl & Hx & _)%list_find_Some.
  assert (x ∈ filter P l) as Hin.
  { apply list_elem_of_filter. split; [done|]. by eapply list_elem_of_lookup_2. }
  destruct (filter P l); [by apply not_elem_of_nil in Hin | simpl; lia].
Qed.

Lemma filter_length_zero (l : list A) :
  list_find P l = None → length (filter P l) = 0%nat.
Proof.
  intros Hl%list_find_None. induction Hl as [|x l Hx _ IH]; [done|].
  by rewrite filter_cons_False.
Qed.

End list_facts.

Lemma fmap_alter_invariant {A B} (g : A → B) (f : A → A) (h : nat) (l : list A) :
  (∀ x, g (f x) = g x) → g <$> alter f h l = g <$> l.
Proof.
  intros Hf. revert h. induction l as [|x l IH]; intros [|h]; csimpl; [done..| |].
  - by rewrite Hf.
  - by rewrite IH.
Qed.

Lemma alter_snoc {A} (f : A → A) (l : list A) (x : A) :
  alter f (length l) (l ++ [x]) = l ++ [f x].
Proof. induction l as [|y l IH]; csimpl; [done|]. by rewrite IH. Qed.

Lemma NoDup_fmap_filter {A B} `{EqDecision B} (g : A → B) (P : A → Prop)
    `{!∀ x, Decision (P x)} (l : list A) :
  NoDup (g <$> l) → NoDup (g <$> filter P l).
Proof.
  induction l as [|x l IH]; [done|]. csimpl. intros [Hx Hl]%NoDup_cons.
  destruct (decide (P x)).
  - rewrite filter_cons_True by done. csimpl. apply NoDup_cons. split; [|auto].
    intros (y & Hy & [_ Hin]%list_elem_of_filter)%list_elem_of_fmap.
    apply Hx, list_elem_of_fmap. eauto.
  - rewrite filter_cons_False by done. auto.
Qed.

(** ** The status table under [upsert] *)

Lemma flags_set_flags fl s :
  flags (UserChoreStatus.set_flags fl.1.1 fl.1.2 fl.2 s) = fl.
Proof. by destruct fl as [[??]?]. Qed.

(** The keys of the table after one round: unchanged when the row was
    there, one more at the end when it was not. *)
Lemma upsert_keys u ch d fl l :
  UserChoreStatus.key <$> upsert u ch d fl l
  = match first_row u ch d l with
    | Some _ => UserChoreStatus.key <$> l
    | None => (UserChoreStatus.key <$> l) ++ [(u, ch, d)]
    end.
Proof.
  unfold upsert. destruct (first_row u ch d l) as [[h r]|].
  - by apply fmap_alter_invariant.
  - by rewrite fmap_app.
Qed.

(** The row found for the key just written. *)
Lemma first_row_upsert_same u ch d fl l :
  first_row u ch d (upsert u ch d fl l)
  = Some match first_row u ch d l with
         | Some (h, r) => (h, UserChoreStatus.set_flags fl.1.1 fl.1.2 fl.2 r)
         | None => (length l,
                    UserChoreStatus.mk (next_rowid (UserChoreStatus.id <$> l))
                      u ch d fl.1.1 fl.1.2 fl.2)
         end.
Proof.
  unfold upsert, first_row.
  destruct (list_find _ l) as [[h r]|] eqn:E.
  - rewrite list_find_alter_invariant by done. rewrite E. csimpl.
    by rewrite decide_True.
  - rewrite list_find_snoc, E. by rewrite decide_True.
Qed.

(** The row found for any other key. *)
Lemma first_row_upsert_other u ch d fl l u' ch' d' :
  (u, ch, d) ≠ (u', ch', d') →
  first_row u' ch' d' (upsert u ch d fl l) = first_row u' ch' d' l.
Proof.
  intros Hne. unfold upsert.
  destruct (first_row u ch d l) as [[h r]|] eqn:E.
  - unfold first_row. rewrite list_find_alter_invariant by done.
    fold (first_row u' ch' d' l).
    destruct (first_row u' ch' d' l) as [[i y]|] eqn:E'; [|done]. csimpl.
    case_decide as Hi; [|done]. subst i.
    apply list_find_Some in E as (Hl & Hk & _).
    apply list_find_Some in E' as (Hl' & Hk' & _).
    congruence.
  - unfold first_row. rewrite list_find_snoc. fold (first_row u' ch' d' l).
    destruct (first_row u' ch' d' l) as [[i y]|]; [done|].
    by rewrite decide_False.
Qed.

Lemma count_rows_keys u ch d l :
  count_rows u ch d l
  = length (filter (λ k, k = (u, ch, d)) (UserChoreStatus.key <$> l)).
Proof.
  unfold count_rows. induction l as [|x l IH]; [done|]. csimpl.
  destruct (decide (UserChoreStatus.key x = (u, ch, d))).
  - rewrite !filter_cons_True by done. simpl. by rewrite IH.
  - by rewrite !filter_cons_False.
Qed.

(** One round adds a row for its key only when there was none. *)
Lemma count_rows_upsert u ch d fl l u' ch' d' :
  count_rows u' ch' d' (upsert u ch d fl l)
  = if decide ((u, ch, d) = (u', ch', d'))
    then Nat.max 1 (count_rows u' ch' d' l)
    else count_rows u' ch' d' l.
Proof.
  rewrite !count_rows_keys, upsert_keys.
  destruct (first_row u ch d l) as [[h r]|] eqn:E.
  - case_decide as Hk; [|done]. inversion Hk; subst.
    apply filter_length_pos in E. fold (count_rows u' ch' d' l) in E.
    rewrite count_rows_keys in E. lia.
  - apply filter_length_zero in E. fold (count_rows u ch d l) in E.
    rewrite filter_app, length_app.
    case_decide as Hk.
    + inversion Hk; subst. rewrite filter_cons_True, filter_nil by done.
      rewrite count_rows_keys in E. simpl. lia.
    + rewrite filter_cons_False, filter_nil by congruence. simpl. lia.
Qed.

Lemma NoDup_keys_upsert u ch d fl l :
  NoDup (UserChoreStatus.key <$> l) →
  NoDup (UserChoreStatus.key <$> upsert u ch d fl l).
Proof.
  intros Hl. rewrite upsert_keys.
  destruct (first_row u ch d l) as [[h r]|] eqn:E; [done|].
  apply NoDup_app. split_and!; [done| |apply NoDup_singleton].
  intros k (s & -> & Hs)%list_elem_of_fmap Hk%list_elem_of_singleton.
  apply list_find_None in E. rewrite Forall_forall in E. by apply (E s).
Qed.

(** ** The status table under the whole update loop *)

Lemma upsert_all_cons u d f c cs l :
  upsert_all u d f (c :: cs) l
  = upsert_all u d f cs (upsert u (Chore.id c) d (submitted f (Chore.id c)) l).
Proof. done. Qed.

(** A chore that is not in the chore table is not touched. *)
Lemma first_row_upsert_all_notin u d f cs l ch :
  ch ∉ Chore.id <$> cs →
  first_row u ch d (upsert_all u d f cs l) = first_row u ch d l.
Proof.
  revert l. induction cs as [|c cs IH]; intros l Hch; [done|].
  rewrite upsert_all_cons. csimpl in Hch. apply not_elem_of_cons in Hch as [Hc Hcs].
  rewrite IH by done. apply first_row_upsert_other. congruence.
Qed.

(** A chore of the chore table ends up with a row carrying the submitted
    flags; when it had a row already, it is that row, at its position. *)
Lemma first_row_upsert_all_in u d f cs l ch :
  ch ∈ Chore.id <$> cs →
  ∃ i r,
    first_row u ch d (upsert_all u d f cs l) = Some (i, r)
    ∧ flags r = submitted f ch
    ∧ ∀ i0 r0, first_row u ch d l = Some (i0, r0) →
        i = i0
        ∧ r = UserChoreStatus.set_flags
                (submitted f ch).1.1 (submitted f ch).1.2 (submitted f ch).2 r0.
Proof.
  revert l. induction cs as [|c cs IH]; intros l Hch.
  { by apply not_elem_of_nil in Hch. }
  rewrite upsert_all_cons.
  set (l1 := upsert u (Chore.id c) d (submitted f (Chore.id c)) l).
  destruct (decide (ch ∈ Chore.id <$> cs)) as [Hin|Hout].
  - destruct (IH l1 Hin) as (i & r & Hfind & Hfl & Hold).
    exists i, r. split_and!; [done..|].
    intros i0 r0 H0.
    destruct (decide (Chore.id c = ch)) as [Heq|Hne].
    + subst ch.
      destruct (Hold i0 (UserChoreStatus.set_flags
                           (submitted f (Chore.id c)).1.1
                           (submitted f (Chore.id c)).1.2
                           (submitted f (Chore.id c)).2 r0)) as [-> ->].
      { unfold l1. by rewrite first_row_upsert_same, H0. }
      done.
    + apply Hold. unfold l1. rewrite first_row_upsert_other by congruence. done.
  - csimpl in Hch. apply elem_of_cons in Hch as [->|?]; [|done].
    rewrite first_row_upsert_all_notin by done.
    unfold l1. rewrite first_row_upsert_same.
    destruct (first_row u (Chore.id c) d l) as [[h r]|] eqn:E.
    + eexists _, _. split_and!; [reflexivity|apply flags_set_flags|].
      intros ?? [= <- <-]. done.
    + eexists _, _. split_and!; [reflexivity|reflexivity|intros ?? [=]].
Qed.

(** The loop creates a row only for a chore of the table that had none. *)
Lemma count_rows_upsert_all u d f cs l ch :
  count_rows u ch d (upsert_all u d f cs l)
  = if decide (ch ∈ Chore.id <$> cs)
    then Nat.max 1 (count_rows u ch d l)
    else count_rows u ch d l.
Proof.
  revert l. induction cs as [|c cs IH]; intros l.
  { rewrite decide_False by apply not_elem_of_nil. done. }
  rewrite upsert_all_cons, IH, count_rows_upsert. csimpl.
  destruct (decide (Chore.id c = ch)) as [Heq|Hne].
  - rewrite (decide_True (P := (u, Chore.id c, d) = (u, ch, d))) by congruence.
    rewrite (decide_True (P := ch ∈ Chore.id c :: _)) by (subst; left).
    case_decide; lia.
  - rewrite (decide_False (P := (u, Chore.id c, d) = (u, ch, d))) by congruence.
    destruct (decide (ch ∈ Chore.id <$> cs)) as [Hin|Hout].
    + by rewrite decide_True by (by right).
    + rewrite decide_False; [done|]. by intros [?|?]%elem_of_cons.
Qed.

Lemma NoDup_keys_upsert_all u d f cs l :
  NoDup (UserChoreStatus.key <$> l) →
  NoDup (UserChoreStatus.key <$> upsert_all u d f cs l).
Proof.
  revert l. induction cs as [|c cs IH]; intros l Hl; [done|].
  rewrite upsert_all_cons. by apply IH, NoDup_keys_upsert.
Qed.

(** At most one row per key, said with [count_rows]. *)
Lemma NoDup_keys_count_rows l u ch d :
  NoDup (UserChoreStatus.key <$> l) → (count_rows u ch d l ≤ 1)%nat.
Proof.
  rewrite count_rows_keys. generalize (UserChoreStatus.key <$> l). clear l.
  intros ks. induction 1 as [|k ks Hk _ IH]; [simpl; lia|].
  destruct (decide (k = (u, ch, d))) as [->|Hne].
  - rewrite filter_cons_True by done. simpl.
    destruct (filter (λ k, k = (u, ch, d)) ks) as [|k' ?] eqn:E; [simpl; lia|].
    assert (k' ∈ filter (λ k, k = (u, ch, d)) ks) as [-> ?]%list_elem_of_filter.
    { rewrite E. apply list_elem_of_here. }
    done.
  - by rewrite filter_cons_False.
Qed.

(** ** Running the views *)

(** Unfold the monad down to functions on contexts. *)
Ltac run_monad :=
  unfold mbind, M_bind, mret, M_ret, raise, get_ctx, log_op, put_db,
    session_contains, session_getitem, session_setitem, session_clear,
    flash, db_session_commit, redirect, render_template, url_for in *.

(** One round of the update loop for an existing user is [upsert] on the
    status table; nothing else in the context changes but the log. *)
Lemma dashboard_update_run req u chore c :
  ∃ ops,
    dashboard_update req (Some u) chore c
    = (Ok (), mkCtx
         (mkDB (users (db c)) (chores (db c))
            (upsert (User.id u) (Chore.id chore) (today req)
               (submitted (form req) (Chore.id chore)) (statuses (db c))))
         (committed c) (session c) (flashes c) (oplog c ++ ops)).
Proof.
  unfold dashboard_update, user_dot_id, UserChoreStatus_query_filter_by_first,
    db_session_add_status, status_setattr, upsert, first_row.
  run_monad. simpl.
  destruct (list_find _ (statuses (db c))) as [[h r]|]; simpl.
  - eexists. rewrite <- !app_assoc. done.
  - eexists. rewrite alter_snoc, <- !app_assoc. done.
Qed.

(** Without a user row the round stops at [user.id], before any query. *)
Lemma dashboard_update_no_user req chore c :
  dashboard_update req None chore c = (Raise AttributeError, c).
Proof. done. Qed.

Lemma dashboard_loop_run req u cs c :
  ∃ ops,
    for_each cs (dashboard_update req (Some u)) c
    = (Ok (), mkCtx
         (mkDB (users (db c)) (chores (db c))
            (upsert_all (User.id u) (today req) (form req) cs (statuses (db c))))
         (committed c) (session c) (flashes c) (oplog c ++ ops)).
Proof.
  revert c. induction cs as [|ch cs IH]; intros c.
  - exists []. rewrite app_nil_r. by destruct c as [[]].
  - simpl. unfold mbind, M_bind.
    destruct (dashboard_update_run req u ch c) as [ops1 ->].
    destruct (IH (mkCtx
         (mkDB (users (db c)) (chores (db c))
            (upsert (User.id u) (Chore.id ch) (today req)
               (submitted (form req) (Chore.id ch)) (statuses (db c))))
         (committed c) (session c) (flashes c) (oplog c ++ ops1))) as [ops2 ->].
    exists (ops1 ++ ops2). simpl. by rewrite app_assoc.
Qed.

Lemma dashboard_loop_no_user req cs c :
  for_each cs (dashboard_update req None) c
  = match cs with [] => (Ok (), c) | _ => (Raise AttributeError, c) end.
Proof. by destruct cs. Qed.

(** [User.query.get] returns a row with the id asked for. *)
Lemma list_find_user_id uid us h u :
  list_find (λ u, User.id u = uid) us = Some (h, u) → User.id u = uid.
Proof. by intros (_ & ? & _)%list_find_Some. Qed.

(** A POST to the dashboard by a client whose session names an existing
    user: the status table becomes [upsert_all] of itself and is committed. *)
Lemma dashboard_post_run req s d uid u0 :
  method req = POST →
  s !! "user_id" = Some uid →
  u0 ∈ users d →
  User.id u0 = uid →
  ∃ ops,
    dashboard req (start s d)
    = (Ok (Redirect302 ep_dashboard),
       let d' := mkDB (users d) (chores d)
                   (upsert_all uid (today req) (form req) (chores d) (statuses d)) in
       mkCtx d' d' s ["Chore statuses updated."] ops).
Proof.
  intros Hm Hs Hu Hid.
  unfold dashboard, login_required, dashboard_view, User_query_get, Chore_query_all.
  unfold start. run_monad. simpl. rewrite Hs. simpl. rewrite Hs, Hm. simpl.
  destruct (list_find (λ u, User.id u = uid) (users d)) as [[h u]|] eqn:E.
  - apply list_find_user_id in E as Hu'. simpl.
    edestruct (dashboard_loop_run req u (chores d)) as [ops ->]. simpl.
    rewrite Hu'. eexists. reflexivity.
  - apply list_find_None in E. rewrite Forall_forall in E. by destruct (E u0).
Qed.

(** ** Every view keeps the status rows unique *)

Create HintDb keeps discriminated.

Lemma keeps_ret {A} (a : A) : keeps_unique (mret a).
Proof. by intros c Hc. Qed.

Lemma keeps_bind {A B} (m : M A) (f : A → M B) :
  keeps_unique m → (∀ a, keeps_unique (f a)) → keeps_unique (m ≫= f).
Proof.
  intros Hm Hf c Hc. unfold mbind, M_bind.
  specialize (Hm c Hc). destruct (m c) as [[a|e] c']; [by apply Hf|done].
Qed.

Lemma keeps_raise {A} e : keeps_unique (@raise A e).
Proof. by intros c Hc. Qed.

Lemma keeps_get_ctx : keeps_unique get_ctx.
Proof. by intros c Hc. Qed.

Lemma keeps_log_op o : keeps_unique (log_op o).
Proof. by intros c Hc. Qed.

Lemma keeps_session_contains k : keeps_unique (session_contains k).
Proof. by intros c Hc. Qed.

Lemma keeps_session_getitem k : keeps_unique (session_getitem k).
Proof. intros c Hc. unfold session_getitem. by destruct (session c !! k). Qed.

Lemma keeps_session_setitem k v : keeps_unique (session_setitem k v).
Proof. by intros c Hc. Qed.

Lemma keeps_session_clear : keeps_unique session_clear.
Proof. by intros c Hc. Qed.

Lemma keeps_flash msg : keeps_unique (flash msg).
Proof. by intros c Hc. Qed.

Lemma keeps_commit : keeps_unique db_session_commit.
Proof. intros c [Hc _]. by split. Qed.

#[local] Hint Resolve keeps_ret keeps_raise keeps_get_ctx keeps_log_op
  keeps_session_contains keeps_session_getitem keeps_session_setitem
  keeps_session_clear keeps_flash keeps_commit : keeps.

(** Decompose a view into its steps. *)
Ltac keeps_steps :=
  repeat first
    [ progress auto with keeps
    | apply keeps_bind; [|intros ?]
    | match goal with
      | |- keeps_unique (match ?x with _ => _ end) => destruct x
      end ].

Lemma keeps_user_by_name name :
  keeps_unique (User_query_filter_by_username_first name).
Proof. unfold User_query_filter_by_username_first. keeps_steps. Qed.

Lemma keeps_user_get i : keeps_unique (User_query_get i).
Proof. unfold User_query_get. keeps_steps. Qed.

Lemma keeps_chore_all : keeps_unique Chore_query_all.
Proof. unfold Chore_query_all. keeps_steps. Qed.

Lemma keeps_chore_get_or_404 i : keeps_unique (Chore_query_get_or_404 i).
Proof. unfold Chore_query_get_or_404. keeps_steps. Qed.

Lemma keeps_status_first u ch d :
  keeps_unique (UserChoreStatus_query_filter_by_first u ch d).
Proof. unfold UserChoreStatus_query_filter_by_first. keeps_steps. Qed.

Lemma keeps_add_user name h : keeps_unique (db_session_add_user name h).
Proof. by intros c Hc. Qed.

Lemma keeps_add_chore name v : keeps_unique (db_session_add_chore name v).
Proof.
  intros c Hc. unfold db_session_add_chore. by destruct (sqlite_real v).
Qed.

(** The cascade removes rows, which cannot create a duplicate. *)
Lemma keeps_delete_chore h ch : keeps_unique (db_session_delete_chore h ch).
Proof.
  intros c [Hc Hc']. split; [|done]. unfold status_unique in *. simpl.
  by apply NoDup_fmap_filter.
Qed.

Lemma keeps_user_dot_id user : keeps_unique (user_dot_id user).
Proof. unfold user_dot_id. keeps_steps. Qed.

#[local] Hint Resolve keeps_user_by_name keeps_user_get keeps_chore_all
  keeps_chore_get_or_404 keeps_status_first keeps_add_user keeps_add_chore
  keeps_delete_chore keeps_user_dot_id : keeps.

(** The round of the update loop looks before it inserts. *)
Lemma keeps_dashboard_update req user chore :
  keeps_unique (dashboard_update req user chore).
Proof.
  intros c [Hc Hc']. destruct user as [u|]; [|done].
  destruct (dashboard_update_run req u chore c) as [ops ->].
  split; [|done]. unfold status_unique in *. simpl.
  by apply NoDup_keys_upsert.
Qed.

Lemma keeps_for_each {A} (l : list A) (body : A → M unit) :
  (∀ x, keeps_unique (body x)) → keeps_unique (for_each l body).
Proof. intros Hb. induction l; simpl; keeps_steps. Qed.

Lemma keeps_for_fold {A S} (l : list A) (body : S → A → M S) (s : S) :
  (∀ s x, keeps_unique (body s x)) → keeps_unique (for_fold l body s).
Proof. intros Hb. revert s. induction l; intros s; simpl; keeps_steps. Qed.

Lemma keeps_dashboard_collect req user sts chore :
  keeps_unique (dashboard_collect req user sts chore).
Proof. unfold dashboard_collect. keeps_steps. Qed.

#[local] Hint Resolve keeps_dashboard_update keeps_for_each keeps_for_fold
  keeps_dashboard_collect : keeps.

Lemma keeps_login_required view :
  keeps_unique view → keeps_unique (login_required view).
Proof. intros Hv. unfold login_required. keeps_steps. Qed.

Lemma keeps_logout : keeps_unique logout.
Proof. unfold logout. keeps_steps. Qed.

Lemma keeps_dashboard req : keeps_unique (dashboard req).
Proof.
  apply keeps_login_required. unfold dashboard_view. keeps_steps.
Qed.

Lemma keeps_delete_chore_route i : keeps_unique (delete_chore i).
Proof.
  apply keeps_login_required. unfold delete_chore_view. keeps_steps.
Qed.

(** ** The GET branch of the dashboard only reads *)

Lemma read_only_ret {A} (a : A) : read_only (mret a).
Proof. by intros c. Qed.

Lemma read_only_bind {A B} (m : M A) (f : A → M B) :
  read_only m → (∀ a, read_only (f a)) → read_only (m ≫= f).
Proof.
  intros Hm Hf c. unfold mbind, M_bind.
  destruct (Hm c) as (H1 & H2 & H3). destruct (m c) as [[a|e] c']; [|done].
  destruct (Hf a c') as (H4 & H5 & H6). simpl in *.
  split_and!; [congruence..|auto].
Qed.

Lemma read_only_raise {A} e : read_only (@raise A e).
Proof. by intros c. Qed.

Lemma read_only_get_ctx : read_only get_ctx.
Proof. by intros c. Qed.

Lemma read_only_select t : read_only (log_op (SELECT t)).
Proof.
  intros c. split_and!; [done..|]. simpl. intros Hc.
  apply Forall_app. split; [done|]. by apply Forall_singleton.
Qed.

Lemma read_only_session_contains k : read_only (session_contains k).
Proof. by intros c. Qed.

Lemma read_only_session_getitem k : read_only (session_getitem k).
Proof. intros c. unfold session_getitem. by destruct (session c !! k). Qed.

#[local] Hint Resolve read_only_ret read_only_raise read_only_get_ctx
  read_only_select read_only_session_contains read_only_session_getitem
  : keeps.

Ltac read_only_steps :=
  repeat first
    [ progress auto with keeps
    | apply read_only_bind; [|intros ?]
    | match goal with
      | |- read_only (match ?x with _ => _ end) => destruct x
      end ].

Lemma read_only_for_fold {A S} (l : list A) (body : S → A → M S) (s : S) :
  (∀ s x, read_only (body s x)) → read_only (for_fold l body s).
Proof. intros Hb. revert s. induction l; intros s; simpl; read_only_steps. Qed.

Lemma read_only_dashboard_collect req user sts chore :
  read_only (dashboard_collect req user sts chore).
Proof.
  unfold dashboard_collect, user_dot_id, UserChoreStatus_query_filter_by_first.
  read_only_steps.
Qed.

#[local] Hint Resolve read_only_for_fold read_only_dashboard_collect : keeps.

Lemma read_only_dashboard_get req :
  method req = GET → read_only (dashboard req).
Proof.
  intros Hm. unfold dashboard, login_required, dashboard_view.
  rewrite Hm. unfold User_query_get, Chore_query_all. read_only_steps.
Qed.

(** The GET loop for an existing user, as a fold over the chores. *)
Lemma dashboard_collect_loop_run req u cs acc c :
  ∃ ops,
    for_fold cs (dashboard_collect req (Some u)) acc c
    = (Ok (collect_all (User.id u) (today req) (statuses (db c)) cs acc),
       mkCtx (db c) (committed c) (session c) (flashes c) (oplog c ++ ops)).
Proof.
  revert acc c. induction cs as [|ch cs IH]; intros acc c.
  - exists []. rewrite app_nil_r. by destruct c.
  - simpl. unfold mbind at 1, M_bind at 1.
    unfold dashboard_collect at 1, user_dot_id,
      UserChoreStatus_query_filter_by_first. run_monad. simpl.
    edestruct IH as [ops ->]. simpl. eexists.
    rewrite <- app_assoc. reflexivity.
Qed.

(** What the dict holds for a chore of the list. *)
Lemma collect_all_lookup u d l cs acc ch :
  ch ∈ Chore.id <$> cs →
  collect_all u d l cs acc !! ch = Some (status_object u d l ch).
Proof.
  unfold collect_all. revert acc.
  induction cs as [|c cs IH] using rev_ind; intros acc Hch.
  { by apply not_elem_of_nil in Hch. }
  rewrite foldl_app. simpl.
  destruct (decide (Chore.id c = ch)) as [<-|Hne].
  - by rewrite lookup_insert_eq.
  - rewrite lookup_insert_ne by done. apply IH.
    rewrite fmap_app in Hch. apply elem_of_app in Hch as [?|Hc]; [done|].
    csimpl in Hc. by apply list_elem_of_singleton in Hc.
Qed.

(** * The claims *)

Section Claims.

Variable float_of_str : string → option float.
Variable generate_password_hash : string → string → string.
Variable check_password_hash : string → string → bool.

Local Abbreviation handle :=
  (serve float_of_str generate_password_hash check_password_hash).
Local Abbreviation reached :=
  (reachable float_of_str generate_password_hash check_password_hash).

(** ** Serving a request keeps the status rows unique *)

Lemma keeps_register req : keeps_unique (register generate_password_hash req).
Proof. unfold register. keeps_steps. Qed.

Lemma keeps_login req : keeps_unique (login check_password_hash req).
Proof. unfold login. keeps_steps. Qed.

Lemma keeps_add_chore_route req : keeps_unique (add_chore float_of_str req).
Proof.
  apply keeps_login_required. unfold add_chore_view. keeps_steps.
Qed.

Lemma keeps_dispatch rt req :
  keeps_unique
    (dispatch float_of_str generate_password_hash check_password_hash rt req).
Proof.
  destruct rt; unfold dispatch; destruct (method req);
    auto using keeps_register, keeps_login, keeps_add_chore_route,
      keeps_logout, keeps_dashboard, keeps_delete_chore_route, keeps_ret.
Qed.

Lemma serve_status_unique rt req s d :
  status_unique d → status_unique (db_after (handle rt req s d)).
Proof.
  intros Hd. unfold serve.
  pose proof (keeps_dispatch rt req (mkCtx d d s [] [])) as H.
  destruct (dispatch _ _ _ rt req _) as [r c]. simpl in *.
  by apply H.
Qed.

(** C2: in every database reachable from the empty one by serving requests
    one after the other, there is at most one UserChoreStatus row per
    (user_id, chore_id, date). *)
Theorem C2_status_rows_unique d :
  reached d →
  ∀ u ch dt, (count_rows u ch dt (statuses d) ≤ 1)%nat.
Proof.
  intros Hd u ch dt. apply NoDup_keys_count_rows.
  induction Hd as [|d rt req s _ IH].
  - apply NoDup_nil_2.
  - by apply serve_status_unique.
Qed.

(** C7: a GET or POST to / or /dashboard whose session has no user_id is
    redirected to the login page, and no database operation is performed. *)
Theorem C7_dashboard_requires_login rt req s d :
  rt = route_index ∨ rt = route_dashboard →
  s !! "user_id" = None →
  let o := serve float_of_str generate_password_hash check_password_hash
             rt req s d in
  response o = Redirect302 ep_login
  ∧ db_ops o = []
  ∧ db_after o = d.
Proof.
  intros Hrt Hs o. subst o.
  assert (dashboard req (mkCtx d d s [] [])
          = (Ok (Redirect302 ep_login), mkCtx d d s [] [])) as Hrun.
  { unfold dashboard, login_required. run_monad. simpl. by rewrite Hs. }
  unfold serve, dispatch.
  destruct Hrt as [-> | ->]; destruct (method req); by rewrite Hrun.
Qed.

(** ** Registration and login *)

Lemma str_truthy_true s : str_truthy s = true ↔ s ≠ "".
Proof. by destruct s. Qed.

Lemma NoDup_fmap_eq {A B} (f : A → B) (l : list A) x y :
  NoDup (f <$> l) → x ∈ l → y ∈ l → f x = f y → x = y.
Proof.
  induction l as [|z l IH]; csimpl; [by intros _ ?%not_elem_of_nil|].
  intros [Hz Hl]%NoDup_cons [->|Hx]%elem_of_cons [->|Hy]%elem_of_cons Hf;
    [done| | |by apply IH].
  - destruct Hz. rewrite Hf. by apply list_elem_of_fmap_2.
  - destruct Hz. rewrite <- Hf. by apply list_elem_of_fmap_2.
Qed.

(** With unique usernames, the query by username finds the user of that
    name. *)
Lemma find_user_by_name d name u :
  NoDup (User.username <$> users d) →
  u ∈ users d → User.username u = name →
  ∃ h, list_find (λ u, User.username u = name) (users d) = Some (h, u).
Proof.
  intros Hnd Hu Hn.
  destruct (list_find_elem_of (λ u, User.username u = name) (users d) u)
    as [[h u'] E]; [done..|].
  exists h. rewrite E. do 2 f_equal.
  apply list_find_Some in E as (Hl & Hn' & _).
  apply (NoDup_fmap_eq User.username (users d)); [done| |done|congruence].
  by eapply list_elem_of_lookup_2.
Qed.

(** C4: when the database holds a user whose username is the stripped
    submitted one, a POST to /register redirects back to the registration
    form with one flash message and leaves the User table (indeed the whole
    database) unchanged. *)
Theorem C4_duplicate_username_rejected req s d u :
  method req = POST →
  u ∈ users d →
  User.username u = strip (form_get_default (form req) "username" "") →
  response (handle route_register req s d) = Redirect302 ep_register
  ∧ (∃ msg, flashed (handle route_register req s d) = [msg])
  ∧ users (db_after (handle route_register req s d)) = users d
  ∧ db_after (handle route_register req s d) = d.
Proof.
  intros Hm Hu Hn. unfold serve, dispatch, register. rewrite Hm.
  destruct (negb _ || negb _); [run_monad; simpl; eauto|].
  unfold User_query_filter_by_username_first. run_monad. simpl.
  destruct (list_find_elem_of
              (λ u, User.username u
                    = strip (form_get_default (form req) "username" ""))
              (users d) u) as [[h u'] ->]; [done..|].
  simpl. eauto.
Qed.

(** C5: a POST to /login stores the matching user's id under
    session["user_id"] and redirects to the dashboard exactly when some user
    has the stripped submitted username and the submitted password verifies
    against that user's hash; otherwise it redirects to the login form and
    the session is as before.  Usernames are unique, as the column is
    declared. *)
Theorem C5_login_sets_session req s d :
  method req = POST →
  NoDup (User.username <$> users d) →
  let name := strip (form_get_default (form req) "username" "") in
  let password := form_get_default (form req) "password" "" in
  let matching u :=
    u ∈ users d ∧ User.username u = name
    ∧ check_password_hash (User.password_hash u) password = true in
  (∀ u, matching u →
     response (handle route_login req s d) = Redirect302 ep_dashboard
     ∧ session_after (handle route_login req s d) = <["user_id" := User.id u]> s)
  ∧ ((¬ ∃ u, matching u) →
     response (handle route_login req s d) = Redirect302 ep_login
     ∧ session_after (handle route_login req s d) = s)
  ∧ (response (handle route_login req s d) = Redirect302 ep_dashboard
     ↔ ∃ u, matching u).
Proof.
  intros Hm Hnd name password matching.
  assert (∀ u, matching u →
            response (handle route_login req s d) = Redirect302 ep_dashboard
            ∧ session_after (handle route_login req s d)
              = <["user_id" := User.id u]> s) as Hyes.
  { intros u (Hu & Hn & Hc).
    destruct (find_user_by_name d name u Hnd Hu Hn) as [h E].
    unfold serve, dispatch, login. rewrite Hm.
    unfold User_query_filter_by_username_first. run_monad. simpl.
    fold name password. rewrite E. simpl. rewrite Hc. done. }
  assert ((¬ ∃ u, matching u) →
            response (handle route_login req s d) = Redirect302 ep_login
            ∧ session_after (handle route_login req s d) = s) as Hno.
  { intros Hnone.
    unfold serve, dispatch, login. rewrite Hm.
    unfold User_query_filter_by_username_first. run_monad. simpl.
    fold name password.
    destruct (list_find _ (users d)) as [[h u]|] eqn:E; simpl; [|done].
    destruct (check_password_hash _ _) eqn:Hc; simpl; [|done].
    destruct Hnone. exists u.
    apply list_find_Some in E as (Hl & Hn & _).
    split_and!; [by eapply list_elem_of_lookup_2|done..]. }
  split_and!; [done..|]. split.
  - intros Hresp.
    destruct (list_find (λ u, User.username u = name) (users d))
      as [[h u]|] eqn:E.
    + destruct (check_password_hash (User.password_hash u) password) eqn:Hc.
      * exists u. apply list_find_Some in E as (Hl & Hn & _).
        split_and!; [by eapply list_elem_of_lookup_2|done..].
      * revert Hresp. unfold serve, dispatch, login. rewrite Hm.
        unfold User_query_filter_by_username_first. run_monad. simpl.
        fold name password. rewrite E. simpl. by rewrite Hc.
    + revert Hresp. unfold serve, dispatch, login. rewrite Hm.
      unfold User_query_filter_by_username_first. run_monad. simpl.
      fold name password. by rewrite E.
  - intros [u Hu]. by apply (Hyes u).
Qed.

(** C10: a POST to /register with a non-empty stripped username, a
    non-empty password and no user of that name redirects to the login page,
    leaves the session as it was, and changes the database by appending the
    one new User row and nothing else. *)
Theorem C10_register_does_not_log_in req s d :
  method req = POST →
  let name := strip (form_get_default (form req) "username" "") in
  let password := form_get_default (form req) "password" "" in
  name ≠ "" →
  password ≠ "" →
  (∀ u, u ∈ users d → User.username u ≠ name) →
  response (handle route_register req s d) = Redirect302 ep_login
  ∧ session_after (handle route_register req s d) = s
  ∧ db_after (handle route_register req s d)
    = mkDB (users d
              ++ [User.mk (next_rowid (User.id <$> users d)) name
                    (generate_password_hash (salt req) password)])
        (chores d) (statuses d)
  ∧ flashed (handle route_register req s d)
    = ["Registration successful. Please log in."].
Proof.
  intros Hm name password Hn Hp Hfree.
  apply str_truthy_true in Hn, Hp.
  unfold serve, dispatch, register. rewrite Hm. fold name password.
  rewrite Hn, Hp. simpl.
  unfold User_query_filter_by_username_first, db_session_add_user.
  run_monad. simpl.
  destruct (list_find _ (users d)) as [[h u]|] eqn:E; simpl; [|done].
  apply list_find_Some in E as (Hl & Hu & _).
  destruct (Hfree u); [by eapply list_elem_of_lookup_2|done].
Qed.

(** ** Chore management *)

(** C6: a POST to /add_chore whose stripped value field [float] rejects
    inserts no Chore row (the database is unchanged); from a session holding
    a user_id it redirects back to the add-chore form with one flash
    message, and from a session without one it redirects to the login page
    with no flash message. *)
Theorem C6_non_numeric_value_rejected req s d :
  method req = POST →
  float_of_str (strip (form_get_default (form req) "value" "")) = None →
  chores (db_after (handle route_add_chore req s d)) = chores d
  ∧ db_after (handle route_add_chore req s d) = d
  ∧ (is_Some (s !! "user_id") →
     response (handle route_add_chore req s d) = Redirect302 ep_add_chore
     ∧ ∃ msg, flashed (handle route_add_chore req s d) = [msg])
  ∧ (s !! "user_id" = None →
     response (handle route_add_chore req s d) = Redirect302 ep_login
     ∧ flashed (handle route_add_chore req s d) = []).
Proof.
  intros Hm Hv.
  unfold serve, dispatch, add_chore, login_required, add_chore_view.
  rewrite Hm, Hv. run_monad. simpl.
  destruct (s !! "user_id") as [uid|] eqn:Hs; simpl.
  - split_and!; [done..| |by intros [=]]. intros _. eauto.
  - split_and!; [done..|by intros [? [=]]|done].
Qed.

Lemma filter_keeps_all {A} (P : A → Prop) `{!∀ x, Decision (P x)} (l : list A) :
  Forall P l → filter P l = l.
Proof.
  induction 1 as [|x l Hx _ IH]; [done|].
  rewrite filter_cons_True by done. by rewrite IH.
Qed.

(** With unique ids, removing the row found by id removes the rows of that
    id. *)
Lemma delete_found_filter {A} (f : A → Z) (b : Z) (l : list A) h x :
  NoDup (f <$> l) →
  list_find (λ x, f x = b) l = Some (h, x) →
  delete h l = filter (λ x, f x ≠ b) l.
Proof.
  revert h. induction l as [|y l IH]; intros h; [done|]. csimpl.
  intros [Hy Hl]%NoDup_cons. case_decide as Hb.
  - intros [= <- <-]. simpl. rewrite filter_cons_False by (by intros []).
    symmetry. apply filter_keeps_all, Forall_forall. intros z Hz Hfz.
    apply Hy. rewrite Hb, <- Hfz. by apply list_elem_of_fmap_2.
  - destruct (list_find _ l) as [[h' x']|] eqn:E; [|done].
    intros [= <- <-]. simpl. rewrite filter_cons_True by done.
    f_equal. by apply IH.
Qed.

(** C3: for a GET of /delete_chore/<i> (chore ids being unique, as a
    primary key is).  From a session holding a user_id: when a chore has id
    [i], that chore and every status row referencing it are removed, all
    users and all other chores and status rows stay, and the client is sent
    back to the add-chore page; when no chore has id [i] and [i] is an
    integer SQLite accepts (below 2^63), the answer is 404 and the database
    is unchanged.  From a session without a user_id the client is sent to
    the login page and the database is unchanged. *)
Theorem C3_delete_chore_cascades req s d (i : N) :
  method req = GET →
  NoDup (Chore.id <$> chores d) →
  let o := serve float_of_str generate_password_hash check_password_hash
             (route_delete_chore i) req s d in
  (is_Some (s !! "user_id") →
     (∀ c, c ∈ chores d → Chore.id c = Z.of_N i →
        response o = Redirect302 ep_add_chore
        ∧ users (db_after o) = users d
        ∧ chores (db_after o)
          = filter (λ c', Chore.id c' ≠ Z.of_N i) (chores d)
        ∧ statuses (db_after o)
          = filter (λ st, UserChoreStatus.chore_id st ≠ Z.of_N i) (statuses d))
     ∧ ((∀ c, c ∈ chores d → Chore.id c ≠ Z.of_N i) →
        sqlite_int (Z.of_N i) = true →
        response o = NotFound404 ∧ db_after o = d))
  ∧ (s !! "user_id" = None →
     response o = Redirect302 ep_login ∧ db_after o = d).
Proof.
  intros Hm Hnd o. subst o.
  unfold serve, dispatch, delete_chore, login_required, delete_chore_view,
    Chore_query_get_or_404, db_session_delete_chore.
  rewrite Hm. run_monad. simpl.
  destruct (s !! "user_id") as [uid|] eqn:Hs; simpl;
    [|split; [by intros [? [=]]|done]].
  split; [intros _|by intros [=]].
  destruct (list_find (λ ch, Chore.id ch = Z.of_N i) (chores d))
    as [[h c']|] eqn:E; simpl.
  - split.
    + intros c Hc Hi. split_and!; [done..| |].
      * by apply (delete_found_filter Chore.id (Z.of_N i) (chores d) h c').
      * apply list_find_Some in E as (_ & -> & _). done.
    + intros Hnone. apply list_find_Some in E as (Hl & Hi & _).
      destruct (Hnone c'); [by eapply list_elem_of_lookup_2|done].
  - split.
    + intros c Hc Hi.
      apply list_find_None in E. rewrite Forall_forall in E. by destruct (E c).
    + intros _ ->. done.
Qed.

(** ** Dashboard *)

(** A POST to the dashboard by a logged-in user: the answer, and the row of
    each chore afterwards. *)
Lemma dashboard_post_row rt req s d u c :
  rt = route_index ∨ rt = route_dashboard →
  method req = POST →
  s !! "user_id" = Some (User.id u) →
  u ∈ users d →
  c ∈ chores d →
  response (handle rt req s d) = Redirect302 ep_dashboard
  ∧ ∃ i r,
      first_row (User.id u) (Chore.id c) (today req)
        (statuses (db_after (handle rt req s d))) = Some (i, r)
      ∧ flags r = submitted (form req) (Chore.id c)
      ∧ (∀ i0 r0,
           first_row (User.id u) (Chore.id c) (today req) (statuses d)
           = Some (i0, r0) →
           i = i0
           ∧ r = UserChoreStatus.set_flags
                   (submitted (form req) (Chore.id c)).1.1
                   (submitted (form req) (Chore.id c)).1.2
                   (submitted (form req) (Chore.id c)).2 r0)
      ∧ count_rows (User.id u) (Chore.id c) (today req)
          (statuses (db_after (handle rt req s d)))
        = Nat.max 1 (count_rows (User.id u) (Chore.id c) (today req) (statuses d)).
Proof.
  intros Hrt Hm Hs Hu Hc.
  destruct (dashboard_post_run req s d (User.id u) u Hm Hs Hu eq_refl)
    as [ops Hrun].
  assert (Chore.id c ∈ Chore.id <$> chores d) as Hin
    by (by apply list_elem_of_fmap_2).
  assert (handle rt req s d
          = mkOutcome (Redirect302 ep_dashboard)
              (mkDB (users d) (chores d)
                 (upsert_all (User.id u) (today req) (form req) (chores d)
                    (statuses d)))
              s ["Chore statuses updated."] ops) as ->.
  { unfold serve, dispatch. unfold start in Hrun.
    destruct Hrt as [-> | ->]; destruct (method req); by rewrite Hrun. }
  simpl. split; [done|].
  destruct (first_row_upsert_all_in (User.id u) (today req) (form req)
              (chores d) (statuses d) (Chore.id c) Hin)
    as (i & r & Hfind & Hfl & Hold).
  exists i, r. split_and!; [done..|].
  rewrite count_rows_upsert_all. by rewrite decide_True.
Qed.

(** C1: after a POST to the dashboard by a logged-in user [u], every chore
    [c] has a row for (u, c, today) whose three flags are the truth values
    of the values submitted for c's three fields: true exactly when the
    field is present with a non-empty value.  A row that was there before is
    the one updated, at its position and under its id, and the number of
    rows for (u, c, today) is what it was; otherwise there is exactly one. *)
Theorem C1_dashboard_post_persists_flags rt req s d u c :
  rt = route_index ∨ rt = route_dashboard →
  method req = POST →
  s !! "user_id" = Some (User.id u) →
  u ∈ users d →
  c ∈ chores d →
  ∃ i r,
    first_row (User.id u) (Chore.id c) (today req)
      (statuses (db_after (handle rt req s d))) = Some (i, r)
    ∧ UserChoreStatus.prepared r
      = py_bool (form_get (form req) (field "prepared_" (Chore.id c)))
    ∧ UserChoreStatus.verified r
      = py_bool (form_get (form req) (field "verified_" (Chore.id c)))
    ∧ UserChoreStatus.completed r
      = py_bool (form_get (form req) (field "completed_" (Chore.id c)))
    ∧ (∀ i0 r0,
         first_row (User.id u) (Chore.id c) (today req) (statuses d)
         = Some (i0, r0) →
         i = i0 ∧ UserChoreStatus.id r = UserChoreStatus.id r0
         ∧ count_rows (User.id u) (Chore.id c) (today req)
             (statuses (db_after (handle rt req s d)))
           = count_rows (User.id u) (Chore.id c) (today req) (statuses d))
    ∧ (first_row (User.id u) (Chore.id c) (today req) (statuses d) = None →
       count_rows (User.id u) (Chore.id c) (today req)
         (statuses (db_after (handle rt req s d))) = 1%nat).
Proof.
  intros Hrt Hm Hs Hu Hc.
  destruct (dashboard_post_row rt req s d u c Hrt Hm Hs Hu Hc)
    as (_ & i & r & Hfind & Hfl & Hold & Hcount).
  exists i, r. unfold flags, submitted in Hfl. injection Hfl as Hp Hv Hcm.
  split_and!; [done..| |].
  - intros i0 r0 H0. destruct (Hold i0 r0 H0) as [-> ->].
    split_and!; [done..|]. rewrite Hcount.
    apply filter_length_pos in H0.
    fold (count_rows (User.id u) (Chore.id c) (today req) (statuses d)) in H0.
    lia.
  - intros H0. rewrite Hcount. apply filter_length_zero in H0.
    fold (count_rows (User.id u) (Chore.id c) (today req) (statuses d)) in H0.
    lia.
Qed.

(** C9: a POST to the dashboard by a logged-in user leaves a row for
    (user, chore, today) for every chore of the table, submitted or not; for
    a chore none of whose three fields is in the form, the three flags of
    that row are False, and a row that was there before is the one
    overwritten. *)
Theorem C9_dashboard_post_clears_unsubmitted rt req s d u :
  rt = route_index ∨ rt = route_dashboard →
  method req = POST →
  s !! "user_id" = Some (User.id u) →
  u ∈ users d →
  (∀ c, c ∈ chores d →
     is_Some (first_row (User.id u) (Chore.id c) (today req)
                (statuses (db_after (handle rt req s d)))))
  ∧ (∀ c, c ∈ chores d →
       form_get (form req) (field "prepared_" (Chore.id c)) = None →
       form_get (form req) (field "verified_" (Chore.id c)) = None →
       form_get (form req) (field "completed_" (Chore.id c)) = None →
       ∃ i r,
         first_row (User.id u) (Chore.id c) (today req)
           (statuses (db_after (handle rt req s d))) = Some (i, r)
         ∧ UserChoreStatus.prepared r = false
         ∧ UserChoreStatus.verified r = false
         ∧ UserChoreStatus.completed r = false
         ∧ ∀ i0 r0,
             first_row (User.id u) (Chore.id c) (today req) (statuses d)
             = Some (i0, r0) →
             i = i0 ∧ r = UserChoreStatus.set_flags false false false r0).
Proof.
  intros Hrt Hm Hs Hu. split.
  - intros c Hc.
    destruct (dashboard_post_row rt req s d u c Hrt Hm Hs Hu Hc)
      as (_ & i & r & -> & _). eauto.
  - intros c Hc Hp Hv Hcm.
    destruct (dashboard_post_row rt req s d u c Hrt Hm Hs Hu Hc)
      as (_ & i & r & Hfind & Hfl & Hold & _).
    unfold flags, submitted in *. rewrite Hp, Hv, Hcm in *. simpl in *.
    injection Hfl as ? ? ?. exists i, r. split_and!; done.
Qed.

(** A GET of the dashboard by a client whose session names an existing
    user renders the page with the dict built by the loop. *)
Lemma dashboard_get_run req s d uid u0 :
  method req = GET →
  s !! "user_id" = Some uid →
  u0 ∈ users d →
  User.id u0 = uid →
  ∃ u ops,
    dashboard req (start s d)
    = (Ok (Rendered
             (dashboard_html (Some u) (chores d)
                (collect_all uid (today req) (statuses d) (chores d) ∅)
                (today req))),
       mkCtx d d s [] ops).
Proof.
  intros Hm Hs Hu Hid.
  unfold dashboard, login_required, dashboard_view, User_query_get, Chore_query_all.
  unfold start. run_monad. simpl. rewrite Hs. simpl. rewrite Hs, Hm. simpl.
  destruct (list_find (λ u, User.id u = uid) (users d)) as [[h u]|] eqn:E.
  - apply list_find_user_id in E as Hu'. simpl.
    edestruct (dashboard_collect_loop_run req u (chores d)) as [ops ->]. simpl.
    rewrite Hu'. eexists _, _. reflexivity.
  - apply list_find_None in E. rewrite Forall_forall in E. by destruct (E u0).
Qed.

(** C8: a GET of / or /dashboard leaves the database as it was and sends
    it nothing but reads; for a logged-in user the page gets, for every
    chore without a row for (user, today), a status object built for the
    occasion, and for the others the stored row. *)
Theorem C8_dashboard_get_read_only rt req s d :
  rt = route_index ∨ rt = route_dashboard →
  method req = GET →
  db_after (handle rt req s d) = d
  ∧ Forall (λ o, is_read o = true) (db_ops (handle rt req s d))
  ∧ ∀ u, s !! "user_id" = Some (User.id u) → u ∈ users d →
      ∃ user sts,
        response (handle rt req s d)
        = Rendered (dashboard_html user (chores d) sts (today req))
        ∧ ∀ c, c ∈ chores d →
            (first_row (User.id u) (Chore.id c) (today req) (statuses d) = None →
             sts !! Chore.id c
             = Some (Transient (User.id u) (Chore.id c) (today req)))
            ∧ (∀ i r,
                 first_row (User.id u) (Chore.id c) (today req) (statuses d)
                 = Some (i, r) →
                 sts !! Chore.id c = Some (Persistent r)).
Proof.
  intros Hrt Hm.
  assert (handle rt req s d
          = let '(r, c) := dashboard req (start s d) in
            mkOutcome
              match r with
              | Ok resp => resp
              | Raise HTTPNotFound => NotFound404
              | Raise _ => InternalServerError500
              end (committed c) (session c) (flashes c) (oplog c)) as ->.
  { unfold serve, dispatch, start.
    by destruct Hrt as [-> | ->]; destruct (method req). }
  split_and!.
  - destruct (read_only_dashboard_get req Hm (start s d)) as (_ & Hc & _).
    by destruct (dashboard req (start s d)).
  - destruct (read_only_dashboard_get req Hm (start s d)) as (_ & _ & Hl).
    destruct (dashboard req (start s d)). simpl in *. by apply Hl.
  - intros u Hs Hu.
    destruct (dashboard_get_run req s d (User.id u) u Hm Hs Hu eq_refl)
      as (u' & ops & ->).
    simpl. eexists _, _. split; [done|]. intros c Hc.
    assert (Chore.id c ∈ Chore.id <$> chores d) as Hin
      by (by apply list_elem_of_fmap_2).
    rewrite collect_all_lookup by done. unfold status_object.
    split; [by intros ->|]. by intros i r ->.
Qed.

End Claims.

(** * The claims on the sample data *)

(** Close a decidable goal by evaluation. *)
Ltac by_evaluation := apply (bool_decide_unpack _); vm_compute; exact I.

Lemma C1_witness :
  (route_dashboard = route_index ∨ route_dashboard = route_dashboard)
  ∧ method tick_dishes = POST
  ∧ alice_session !! "user_id" = Some (User.id alice)
  ∧ alice ∈ users sample_db
  ∧ dishes ∈ chores sample_db
  ∧ ∃ i r,
      first_row (User.id alice) (Chore.id dishes) (today tick_dishes)
        (statuses (db_after
           (demo_serve route_dashboard tick_dishes alice_session sample_db)))
      = Some (i, r)
      ∧ UserChoreStatus.prepared r = true
      ∧ UserChoreStatus.verified r = false
      ∧ UserChoreStatus.completed r = false
      ∧ i = 0%nat
      ∧ UserChoreStatus.id r = UserChoreStatus.id alice_dishes.
Proof.
  assert (alice ∈ users sample_db) as Hu by apply list_elem_of_here.
  assert (dishes ∈ chores sample_db) as Hc by apply list_elem_of_here.
  split_and!; [by right|done|done|done|done|].
  destruct (C1_dashboard_post_persists_flags float_of_digits
              demo_generate_password_hash demo_check_password_hash
              route_dashboard tick_dishes alice_session sample_db alice dishes
              (or_intror eq_refl) eq_refl eq_refl Hu Hc)
    as (i & r & Hfind & Hp & Hv & Hcm & Hold & _).
  destruct (Hold 0%nat alice_dishes eq_refl) as (Hi & Hid & _).
  exists i, r. split_and!; done.
Defined.

(** C1 as stated, with the flags equal to the presence of the fields,
    fails: Alice submits the field prepared_1 with an empty value; the field
    is present, and the row for (Alice, dishes, today) gets prepared =
    False. *)
Lemma C1_counterexample :
  alice_session !! "user_id" = Some (User.id alice)
  ∧ alice ∈ users sample_db
  ∧ dishes ∈ chores sample_db
  ∧ present (form blank_tick) (field "prepared_" (Chore.id dishes)) = true
  ∧ ∃ i r,
      first_row (User.id alice) (Chore.id dishes) (today blank_tick)
        (statuses (db_after
           (demo_serve route_dashboard blank_tick alice_session sample_db)))
      = Some (i, r)
      ∧ UserChoreStatus.prepared r = false
      ∧ UserChoreStatus.prepared r
        ≠ present (form blank_tick) (field "prepared_" (Chore.id dishes)).
Proof.
  split_and!; [done|apply list_elem_of_here..|by vm_compute|].
  exists 2%nat, (UserChoreStatus.mk 3 1 1 101 false false false).
  split_and!; [by vm_compute|done|by vm_compute].
Qed.

Lemma C2_witness :
  reachable float_of_digits demo_generate_password_hash
    demo_check_password_hash history_db
  ∧ ∀ u ch dt, (count_rows u ch dt (statuses history_db) ≤ 1)%nat.
Proof.
  assert (reachable float_of_digits demo_generate_password_hash
            demo_check_password_hash history_db) as H.
  { unfold history_db, demo_serve.
    do 4 apply reachable_serve. apply reachable_empty. }
  split; [exact H|].
  exact (C2_status_rows_unique float_of_digits demo_generate_password_hash
           demo_check_password_hash history_db H).
Defined.

Lemma C3_witness :
  method get_page = GET
  ∧ is_Some (alice_session !! "user_id")
  ∧ NoDup (Chore.id <$> chores sample_db)
  ∧ dishes ∈ chores sample_db
  ∧ Chore.id dishes = Z.of_N 1
  ∧ (∀ c, c ∈ chores sample_db → Chore.id c ≠ Z.of_N 7)
  ∧ sqlite_int (Z.of_N 7) = true
  ∧ response (demo_serve (route_delete_chore 1) get_page alice_session sample_db)
    = Redirect302 ep_add_chore
  ∧ db_after (demo_serve (route_delete_chore 1) get_page alice_session sample_db)
    = mkDB [alice; bob] [laundry] [bob_laundry]
  ∧ response (demo_serve (route_delete_chore 7) get_page alice_session sample_db)
    = NotFound404
  ∧ db_after (demo_serve (route_delete_chore 7) get_page alice_session sample_db)
    = sample_db.
Proof.
  assert (is_Some (alice_session !! "user_id")) as Hs by (by eexists).
  assert (NoDup (Chore.id <$> chores sample_db)) as Hnd by by_evaluation.
  assert (dishes ∈ chores sample_db) as Hc by apply list_elem_of_here.
  assert (∀ c, c ∈ chores sample_db → Chore.id c ≠ Z.of_N 7) as Hnone.
  { intros c [->|[->|[]%not_elem_of_nil]%elem_of_cons]%elem_of_cons; done. }
  destruct (C3_delete_chore_cascades float_of_digits
              demo_generate_password_hash demo_check_password_hash
              get_page alice_session sample_db 1 eq_refl Hnd)
    as [Hin _].
  destruct (Hin Hs) as [Hyes _].
  destruct (Hyes dishes Hc eq_refl) as (Hr & Hus & Hcs & Hss).
  destruct (C3_delete_chore_cascades float_of_digits
              demo_generate_password_hash demo_check_password_hash
              get_page alice_session sample_db 7 eq_refl Hnd)
    as [Hin7 _].
  destruct (Hin7 Hs) as [_ Hno].
  destruct (Hno Hnone eq_refl) as [Hr7 Hd7].
  split_and!; [done..| |done|done].
  destruct (db_after _) as [us cs ss]. simpl in *. by subst.
Defined.

(** C3 as stated, for every request, fails: without a user_id in the
    session the chore with the requested id stays and the client is sent to
    the login page, and a request for an id no chore has is sent to the
    login page as well instead of being answered 404. *)
Lemma C3_counterexample :
  dishes ∈ chores sample_db
  ∧ Chore.id dishes = Z.of_N 1
  ∧ response (demo_serve (route_delete_chore 1) get_page ∅ sample_db)
    = Redirect302 ep_login
  ∧ dishes ∈ chores
      (db_after (demo_serve (route_delete_chore 1) get_page ∅ sample_db))
  ∧ alice_dishes ∈ statuses
      (db_after (demo_serve (route_delete_chore 1) get_page ∅ sample_db))
  ∧ (∀ c, c ∈ chores sample_db → Chore.id c ≠ Z.of_N 7)
  ∧ response (demo_serve (route_delete_chore 7) get_page ∅ sample_db)
    ≠ NotFound404.
Proof.
  split_and!; [apply list_elem_of_here|done|done|apply list_elem_of_here..| |done].
  intros c [->|[->|[]%not_elem_of_nil]%elem_of_cons]%elem_of_cons; done.
Qed.

Lemma C4_witness :
  method register_alice = POST
  ∧ alice ∈ users sample_db
  ∧ User.username alice
    = strip (form_get_default (form register_alice) "username" "")
  ∧ response (demo_serve route_register register_alice ∅ sample_db)
    = Redirect302 ep_register
  ∧ (∃ msg, flashed (demo_serve route_register register_alice ∅ sample_db)
            = [msg])
  ∧ users (db_after (demo_serve route_register register_alice ∅ sample_db))
    = users sample_db
  ∧ db_after (demo_serve route_register register_alice ∅ sample_db)
    = sample_db.
Proof.
  assert (alice ∈ users sample_db) as Hu by apply list_elem_of_here.
  destruct (C4_duplicate_username_rejected float_of_digits
              demo_generate_password_hash demo_check_password_hash
              register_alice ∅ sample_db alice eq_refl Hu eq_refl)
    as (Hr & Hf & Hus & Hd).
  split_and!; done.
Defined.

Lemma C5_witness :
  method login_alice = POST
  ∧ NoDup (User.username <$> users sample_db)
  ∧ alice ∈ users sample_db
  ∧ User.username alice
    = strip (form_get_default (form login_alice) "username" "")
  ∧ demo_check_password_hash (User.password_hash alice)
      (form_get_default (form login_alice) "password" "") = true
  ∧ response (demo_serve route_login login_alice ∅ sample_db)
    = Redirect302 ep_dashboard
  ∧ session_after (demo_serve route_login login_alice ∅ sample_db)
    = <["user_id" := User.id alice]> ∅.
Proof.
  assert (NoDup (User.username <$> users sample_db)) as Hnd by by_evaluation.
  assert (alice ∈ users sample_db) as Hu by apply list_elem_of_here.
  destruct (C5_login_sets_session float_of_digits
              demo_generate_password_hash demo_check_password_hash
              login_alice ∅ sample_db eq_refl Hnd) as (Hyes & _ & _).
  destruct (Hyes alice) as [Hr Hs]; [split_and!; done|].
  split_and!; done.
Defined.

Lemma C6_witness :
  method add_bad_value = POST
  ∧ float_of_digits (strip (form_get_default (form add_bad_value) "value" ""))
    = None
  ∧ is_Some (alice_session !! "user_id")
  ∧ db_after (demo_serve route_add_chore add_bad_value alice_session sample_db)
    = sample_db
  ∧ response (demo_serve route_add_chore add_bad_value alice_session sample_db)
    = Redirect302 ep_add_chore
  ∧ (∃ msg,
       flashed (demo_serve route_add_chore add_bad_value alice_session sample_db)
       = [msg])
  ∧ response (demo_serve route_add_chore add_bad_value ∅ sample_db)
    = Redirect302 ep_login.
Proof.
  assert (is_Some (alice_session !! "user_id")) as Hs by (by eexists).
  destruct (C6_non_numeric_value_rejected float_of_digits
              demo_generate_password_hash demo_check_password_hash
              add_bad_value alice_session sample_db eq_refl eq_refl)
    as (_ & Hd & Hin & _).
  destruct (C6_non_numeric_value_rejected float_of_digits
              demo_generate_password_hash demo_check_password_hash
              add_bad_value ∅ sample_db eq_refl eq_refl)
    as (_ & _ & _ & Hout).
  destruct (Hin Hs) as [Hr Hf]. destruct Hout as [Hr' _]; [done|].
  split_and!; done.
Defined.

(** C6 as stated, for every POST, fails: the value "abc" does not parse,
    and without a user_id in the session the client is sent to the login
    page, not back to the add-chore form, and nothing is flashed. *)
Lemma C6_counterexample :
  method add_bad_value = POST
  ∧ float_of_digits (strip (form_get_default (form add_bad_value) "value" ""))
    = None
  ∧ response (demo_serve route_add_chore add_bad_value ∅ sample_db)
    = Redirect302 ep_login
  ∧ response (demo_serve route_add_chore add_bad_value ∅ sample_db)
    ≠ Redirect302 ep_add_chore
  ∧ flashed (demo_serve route_add_chore add_bad_value ∅ sample_db) = [].
Proof. split_and!; done. Qed.

Lemma C7_witness :
  (route_index = route_index ∨ route_index = route_dashboard)
  ∧ (∅ : gmap string Z) !! "user_id" = None
  ∧ response (demo_serve route_index tick_dishes ∅ sample_db)
    = Redirect302 ep_login
  ∧ db_ops (demo_serve route_index tick_dishes ∅ sample_db) = []
  ∧ db_after (demo_serve route_index tick_dishes ∅ sample_db) = sample_db.
Proof.
  assert ((∅ : gmap string Z) !! "user_id" = None) as Hs by done.
  destruct (C7_dashboard_requires_login float_of_digits
              demo_generate_password_hash demo_check_password_hash
              route_index tick_dishes ∅ sample_db (or_introl eq_refl) Hs)
    as (Hr & Hops & Hd).
  split_and!; [by left|done..].
Defined.

Lemma C8_witness :
  (route_dashboard = route_index ∨ route_dashboard = route_dashboard)
  ∧ method get_page = GET
  ∧ alice_session !! "user_id" = Some (User.id alice)
  ∧ alice ∈ users sample_db
  ∧ dishes ∈ chores sample_db
  ∧ first_row (User.id alice) (Chore.id dishes) (today get_page)
      (statuses sample_db) = None
  ∧ db_after (demo_serve route_dashboard get_page alice_session sample_db)
    = sample_db
  ∧ Forall (λ o, is_read o = true)
      (db_ops (demo_serve route_dashboard get_page alice_session sample_db))
  ∧ ∃ user sts,
      response (demo_serve route_dashboard get_page alice_session sample_db)
      = Rendered (dashboard_html user (chores sample_db) sts (today get_page))
      ∧ sts !! Chore.id dishes
        = Some (Transient (User.id alice) (Chore.id dishes) (today get_page)).
Proof.
  assert (alice ∈ users sample_db) as Hu by apply list_elem_of_here.
  assert (dishes ∈ chores sample_db) as Hc by apply list_elem_of_here.
  destruct (C8_dashboard_get_read_only float_of_digits
              demo_generate_password_hash demo_check_password_hash
              route_dashboard get_page alice_session sample_db
              (or_intror eq_refl) eq_refl) as (Hd & Hops & Hpage).
  destruct (Hpage alice eq_refl Hu) as (user & sts & Hr & Hsts).
  split_and!; [by right|done..|].
  exists user, sts. split; [done|]. by apply (Hsts dishes Hc).
Defined.

Lemma C9_witness :
  (route_dashboard = route_index ∨ route_dashboard = route_dashboard)
  ∧ method tick_dishes = POST
  ∧ alice_session !! "user_id" = Some (User.id alice)
  ∧ alice ∈ users sample_db
  ∧ laundry ∈ chores sample_db
  ∧ form_get (form tick_dishes) (field "prepared_" (Chore.id laundry)) = None
  ∧ form_get (form tick_dishes) (field "verified_" (Chore.id laundry)) = None
  ∧ form_get (form tick_dishes) (field "completed_" (Chore.id laundry)) = None
  ∧ ∃ i r,
      first_row (User.id alice) (Chore.id laundry) (today tick_dishes)
        (statuses (db_after
           (demo_serve route_dashboard tick_dishes alice_session sample_db)))
      = Some (i, r)
      ∧ UserChoreStatus.prepared r = false
      ∧ UserChoreStatus.verified r = false
      ∧ UserChoreStatus.completed r = false.
Proof.
  assert (alice ∈ users sample_db) as Hu by apply list_elem_of_here.
  assert (laundry ∈ chores sample_db) as Hc
    by apply list_elem_of_further, list_elem_of_here.
  assert (form_get (form tick_dishes) (field "prepared_" (Chore.id laundry))
          = None) as Hp by (by vm_compute).
  assert (form_get (form tick_dishes) (field "verified_" (Chore.id laundry))
          = None) as Hv by (by vm_compute).
  assert (form_get (form tick_dishes) (field "completed_" (Chore.id laundry))
          = None) as Hcm by (by vm_compute).
  destruct (C9_dashboard_post_clears_unsubmitted float_of_digits
              demo_generate_password_hash demo_check_password_hash
              route_dashboard tick_dishes alice_session sample_db alice
              (or_intror eq_refl) eq_refl eq_refl Hu) as [_ Hclear].
  destruct (Hclear laundry Hc Hp Hv Hcm) as (i & r & Hfind & ? & ? & ? & _).
  split_and!; [by right|done..|]. exists i, r. split_and!; done.
Defined.

Lemma C10_witness :
  method register_carol = POST
  ∧ strip (form_get_default (form register_carol) "username" "") ≠ ""
  ∧ form_get_default (form register_carol) "password" "" ≠ ""
  ∧ (∀ u, u ∈ users sample_db →
       User.username u
       ≠ strip (form_get_default (form register_carol) "username" ""))
  ∧ response (demo_serve route_register register_carol alice_session sample_db)
    = Redirect302 ep_login
  ∧ session_after
      (demo_serve route_register register_carol alice_session sample_db)
    = alice_session
  ∧ db_after (demo_serve route_register register_carol alice_session sample_db)
    = mkDB [alice; bob; User.mk 3 "carol" "s3$x"]
        (chores sample_db) (statuses sample_db).
Proof.
  assert (strip (form_get_default (form register_carol) "username" "") ≠ "")
    as Hn by (by vm_compute).
  assert (form_get_default (form register_carol) "password" "" ≠ "")
    as Hp by (by vm_compute).
  assert (∀ u, u ∈ users sample_db →
            User.username u
            ≠ strip (form_get_default (form register_carol) "username" ""))
    as Hfree.
  { intros u [->|[->|[]%not_elem_of_nil]%elem_of_cons]%elem_of_cons;
      by vm_compute. }
  destruct (C10_register_does_not_log_in float_of_digits
              demo_generate_password_hash demo_check_password_hash
              register_carol alice_session sample_db eq_refl Hn Hp Hfree)
    as (Hr & Hs & Hd & _).
  split_and!; done.
Defined.

(** * Further properties of the code *)

(** ** [strip] *)

Lemma str_app_cons a (s t : string) : String a s +:+ t = String a (s +:+ t).
Proof. done. Qed.

Lemma str_app_nil_r (s : string) : s +:+ "" = s.
Proof. induction s as [|a s IH]; [done|]. by rewrite str_app_cons, IH. Qed.

Lemma str_app_assoc (s1 s2 s3 : string) :
  (s1 +:+ s2) +:+ s3 = s1 +:+ (s2 +:+ s3).
Proof.
  induction s1 as [|a s1 IH]; [done|]. by rewrite !str_app_cons, IH.
Qed.

Lemma str_rev_app_spec (s1 s2 : string) :
  String.rev_app s1 s2 = String.rev s1 +:+ s2.
Proof.
  unfold String.rev. revert s2.
  induction s1 as [|a s1 IH]; intros s2; simpl; [done|].
  rewrite (IH (String a s2)), (IH (String a "")).
  by rewrite str_app_assoc.
Qed.

Lemma str_rev_cons a (s : string) :
  String.rev (String a s) = String.rev s +:+ String a "".
Proof. unfold String.rev at 1. simpl. apply str_rev_app_spec. Qed.

Lemma str_rev_app (s1 s2 : string) :
  String.rev (s1 +:+ s2) = String.rev s2 +:+ String.rev s1.
Proof.
  induction s1 as [|a s1 IH].
  - by rewrite str_app_nil_r.
  - by rewrite str_app_cons, !str_rev_cons, IH, str_app_assoc.
Qed.

Lemma str_rev_involutive (s : string) : String.rev (String.rev s) = s.
Proof.
  induction s as [|a s IH]; [done|].
  by rewrite str_rev_cons, str_rev_app, IH.
Qed.

Lemma lstrip_length (s : string) :
  (String.length (lstrip s) ≤ String.length s)%nat.
Proof.
  induction s as [|a s IH]; simpl; [done|]. destruct (isspace a); simpl; lia.
Qed.

(** A string that [lstrip] leaves alone does not start with whitespace. *)
Lemma lstrip_fixed_head a (s : string) :
  lstrip (String a s) = String a s → isspace a = false.
Proof.
  simpl. destruct (isspace a); [|done]. intros Heq.
  pose proof (lstrip_length s) as Hlen. rewrite Heq in Hlen. simpl in Hlen. lia.
Qed.

Lemma lstrip_idemp (s : string) : lstrip (lstrip s) = lstrip s.
Proof.
  induction s as [|a s IH]; simpl; [done|].
  destruct (isspace a) eqn:Ha; [done|]. simpl. by rewrite Ha.
Qed.

(** [lstrip] removes a prefix. *)
Lemma lstrip_prefix (s : string) : ∃ w, s = w +:+ lstrip s.
Proof.
  induction s as [|a s [w IH]]; simpl; [by exists ""|].
  destruct (isspace a).
  - exists (String a w). by rewrite str_app_cons, <- IH.
  - by exists "".
Qed.

(** Stripping the right end of a string that does not start with whitespace
    gives a string that does not start with whitespace. *)
Lemma lstrip_rstrip_fixed (t : string) :
  lstrip t = t → lstrip (rstrip t) = rstrip t.
Proof.
  intros Ht. unfold rstrip.
  destruct (lstrip_prefix (String.rev t)) as [w Hw].
  set (v := lstrip (String.rev t)) in *.
  assert (t = String.rev v +:+ String.rev w) as Ht'.
  { by rewrite <- str_rev_app, <- Hw, str_rev_involutive. }
  destruct (String.rev v) as [|a r'] eqn:Hv; [done|].
  rewrite str_app_cons in Ht'. rewrite Ht' in Ht.
  apply lstrip_fixed_head in Ht.
  simpl. by rewrite Ht.
Qed.

Lemma rstrip_idemp (s : string) : rstrip (rstrip s) = rstrip s.
Proof. unfold rstrip. by rewrite str_rev_involutive, lstrip_idemp. Qed.

(** [s.strip().strip() == s.strip()] *)
Lemma strip_idemp (s : string) : strip (strip s) = strip s.
Proof.
  unfold strip.
  rewrite (lstrip_rstrip_fixed (lstrip s)) by apply lstrip_idemp.
  apply rstrip_idemp.
Qed.

(** A string of whitespace only strips to the empty string. *)
Lemma strip_whitespace (s : string) :
  Forall (λ a, isspace a = true) (String.list_ascii_of_string s) → strip s = "".
Proof.
  intros Hs. assert (lstrip s = "") as Hl.
  { induction s as [|a s IH]; simpl in *; [done|].
    apply Forall_cons in Hs as [-> Hs]. auto. }
  unfold strip. by rewrite Hl.
Qed.

(** ** Row ids *)

Lemma foldr_max_ge (i : Z) (r : list Z) (x : Z) :
  x ∈ i :: r → (x ≤ foldr Z.max i r)%Z.
Proof.
  revert x. induction r as [|y r IH]; simpl; intros x Hx.
  - apply list_elem_of_singleton in Hx. lia.
  - assert (i ≤ foldr Z.max i r)%Z by (apply IH; left).
    apply elem_of_cons in Hx as [Hx|Hx]; [lia|].
    apply elem_of_cons in Hx as [Hx|Hx]; [lia|].
    assert (x ≤ foldr Z.max i r)%Z by (apply IH; by right). lia.
Qed.

(** The id given to a new row is above every id in use. *)
Lemma next_rowid_gt (ids : list Z) (i : Z) :
  i ∈ ids → (i < next_rowid ids)%Z.
Proof.
  destruct ids as [|i0 r]; [by intros ?%not_elem_of_nil|].
  intros Hi%foldr_max_ge. simpl. lia.
Qed.

Lemma next_rowid_pos (ids : list Z) :
  Forall (λ i, 0 < i) ids → 0 < next_rowid ids.
Proof.
  destruct ids as [|i0 r]; [done|]. intros [Hi _]%Forall_cons.
  assert (i0 ≤ foldr Z.max i0 r)%Z by (apply foldr_max_ge; left). simpl. lia.
Qed.

Lemma ids_ok_snoc (ids : list Z) : ids_ok ids → ids_ok (ids ++ [next_rowid ids]).
Proof.
  intros [Hs Hp]. split.
  - apply StronglySorted_app_2; [|done|repeat constructor].
    intros x1 x2 Hx1 ->%list_elem_of_singleton. by apply next_rowid_gt.
  - apply Forall_app. split; [done|]. apply Forall_singleton.
    by apply next_rowid_pos.
Qed.

Lemma Forall_sublist_of {A} (P : A → Prop) (l' l : list A) :
  l' `sublist_of` l → Forall P l → Forall P l'.
Proof.
  induction 1 as [|x l1 l2 _ IH|x l1 l2 _ IH]; [done|..];
    intros [Hx Hl]%Forall_cons; auto.
Qed.

Lemma StronglySorted_sublist_of {A} (R : relation A) (l' l : list A) :
  l' `sublist_of` l → StronglySorted R l → StronglySorted R l'.
Proof.
  induction 1 as [|x l1 l2 Hsub IH|x l1 l2 _ IH]; [done|..];
    intros [Hx Hl]%StronglySorted_cons; [|auto].
  apply StronglySorted_cons. split; [|auto]. by eapply Forall_sublist_of.
Qed.

Lemma ids_ok_sublist (ids' ids : list Z) :
  ids' `sublist_of` ids → ids_ok ids → ids_ok ids'.
Proof.
  intros Hsub [Hs Hp]. split.
  - by eapply StronglySorted_sublist_of.
  - by eapply Forall_sublist_of.
Qed.

(** Increasing ids are pairwise different. *)
Lemma ids_ok_NoDup (ids : list Z) : ids_ok ids → NoDup ids.
Proof.
  intros [Hs _]. induction Hs as [|i l _ IH Hi]; [constructor|].
  apply NoDup_cons. split; [|done]. intros Hin.
  rewrite Forall_forall in Hi. specialize (Hi i Hin). lia.
Qed.

(** ** The status table under the update loop, continued *)

Lemma upsert_ids u ch d fl l :
  UserChoreStatus.id <$> upsert u ch d fl l
  = match first_row u ch d l with
    | Some _ => UserChoreStatus.id <$> l
    | None => (UserChoreStatus.id <$> l)
              ++ [next_rowid (UserChoreStatus.id <$> l)]
    end.
Proof.
  unfold upsert. destruct (first_row u ch d l) as [[h r]|].
  - by apply fmap_alter_invariant.
  - by rewrite fmap_app.
Qed.

Lemma ids_ok_upsert_all u d f cs l :
  ids_ok (UserChoreStatus.id <$> l) →
  ids_ok (UserChoreStatus.id <$> upsert_all u d f cs l).
Proof.
  revert l. induction cs as [|c cs IH]; intros l Hl; [done|].
  rewrite upsert_all_cons. apply IH. rewrite upsert_ids.
  destruct (first_row _ _ _ l); [done|]. by apply ids_ok_snoc.
Qed.

(** A property of rows that does not look at the flags and holds of the
    rows the loop creates holds throughout the table after the loop. *)
Lemma Forall_upsert_all (P : UserChoreStatus.t → Prop) u d f cs l :
  (∀ p v c r, P r → P (UserChoreStatus.set_flags p v c r)) →
  (∀ i c p v cm, c ∈ cs → P (UserChoreStatus.mk i u (Chore.id c) d p v cm)) →
  Forall P l →
  Forall P (upsert_all u d f cs l).
Proof.
  intros Hset. revert l. induction cs as [|c cs IH]; intros l Hnew Hl; [done|].
  rewrite upsert_all_cons. apply IH; [intros; apply Hnew; by right|].
  unfold upsert. destruct (first_row _ _ _ l) as [[h r]|].
  - rewrite Forall_lookup in Hl |- *. intros j x.
    destruct (decide (j = h)) as [->|Hne].
    + rewrite list_lookup_alter_eq.
      destruct (l !! h) as [y|] eqn:E; [|done].
      intros [= <-]. apply Hset. by eapply Hl.
    + rewrite list_lookup_alter_ne by done. apply Hl.
  - apply Forall_app. split; [done|]. apply Forall_singleton, Hnew. left.
Qed.

(** ** Every way of changing the database keeps it well formed *)

Lemma elem_of_fmap_app_l {A B} (f : A → B) (l k : list A) y :
  y ∈ f <$> l → y ∈ f <$> (l ++ k).
Proof. rewrite fmap_app. intros. apply elem_of_app. by left. Qed.

Lemma db_step_wf d d' : wf_db d → db_step d d' → wf_db d'.
Proof.
  intros [Hui Huu Hun Hus Hci Hcn Hsi Hsu Hsc] Hstep.
  destruct Hstep as [|name pwhash Hn Hstr Hfree|name value Hn|i h c Hfind|u day f Hu].
  - by split.
  - split; simpl; try done.
    + rewrite fmap_app. by apply ids_ok_snoc.
    + rewrite fmap_app. apply NoDup_app. split_and!; [done| |apply NoDup_singleton].
      intros x (u & -> & Hu)%list_elem_of_fmap Hx%list_elem_of_singleton.
      by apply (Hfree u).
    + apply Forall_app. split; [done|]. by apply Forall_singleton.
    + apply Forall_app. split; [done|]. by apply Forall_singleton.
    + eapply Forall_impl; [exact Hsu|]. intros s. apply elem_of_fmap_app_l.
  - split; simpl; try done.
    + rewrite fmap_app. by apply ids_ok_snoc.
    + apply Forall_app. split; [done|]. by apply Forall_singleton.
    + eapply Forall_impl; [exact Hsc|]. intros s. apply elem_of_fmap_app_l.
  - assert (delete h (chores d)
            = filter (λ x, Chore.id x ≠ i) (chores d)) as Hdel.
    { apply (delete_found_filter Chore.id i (chores d) h c);
        [by apply ids_ok_NoDup|done]. }
    apply list_find_Some in Hfind as (_ & Hci' & _).
    split; simpl; try done.
    + apply (ids_ok_sublist _ (Chore.id <$> chores d)); [|done].
      apply fmap_sublist, sublist_delete.
    + apply (Forall_sublist_of _ _ (chores d)); [|done]. apply sublist_delete.
    + apply (ids_ok_sublist _ (UserChoreStatus.id <$> statuses d)); [|done].
      apply fmap_sublist, sublist_filter.
    + apply (Forall_sublist_of _ _ (statuses d)); [|done]. apply sublist_filter.
    + rewrite Hdel. apply Forall_forall.
      intros s [Hne Hs]%list_elem_of_filter.
      rewrite Forall_forall in Hsc.
      destruct (proj1 (list_elem_of_fmap _ _ _) (Hsc s Hs)) as (c' & Hid & Hc').
      rewrite Hid. apply list_elem_of_fmap_2, list_elem_of_filter.
      split; [congruence|done].
  - split; simpl; try done.
    + by apply ids_ok_upsert_all.
    + apply Forall_upsert_all; [done| |done].
      intros. simpl. by apply list_elem_of_fmap_2.
    + apply Forall_upsert_all; [done| |done].
      intros. simpl. by apply list_elem_of_fmap_2.
Qed.

Lemma wf_empty_db : wf_db empty_db.
Proof. split; simpl; first [by split; constructor | by constructor]. Qed.

Lemma DB_eta (d : DB) : mkDB (users d) (chores d) (statuses d) = d.
Proof. by destruct d. Qed.

(** The dashboard, whatever the session: nothing, or the update loop for an
    existing user. *)
Lemma dashboard_db_step req s d :
  db_step d (committed (dashboard req (start s d)).2).
Proof.
  destruct (method req) eqn:Hm.
  { destruct (read_only_dashboard_get req Hm (start s d)) as (_ & -> & _).
    constructor. }
  destruct (s !! "user_id") as [uid|] eqn:Hs.
  - destruct (list_find (λ u, User.id u = uid) (users d)) as [[h u]|] eqn:E.
    + apply list_find_Some in E as (Hl & Hid & _).
      assert (u ∈ users d) as Hu by (by eapply list_elem_of_lookup_2).
      destruct (dashboard_post_run req s d uid u Hm Hs Hu Hid) as [ops ->].
      simpl. rewrite <- Hid. by constructor.
    + unfold dashboard, login_required, dashboard_view, User_query_get,
        Chore_query_all, start.
      run_monad. simpl. rewrite Hs. simpl. rewrite Hs, Hm. simpl. rewrite E.
      simpl. rewrite dashboard_loop_no_user.
      destruct (chores d); simpl; constructor.
  - unfold dashboard, login_required, start. run_monad. simpl. rewrite Hs.
    simpl. constructor.
Qed.

Section Steps.

Variable float_of_str : string → option float.
Variable generate_password_hash : string → string → string.
Variable check_password_hash : string → string → bool.

Local Abbreviation handle :=
  (serve float_of_str generate_password_hash check_password_hash).
Local Abbreviation reached :=
  (reachable float_of_str generate_password_hash check_password_hash).

(** Whatever the request, the database it leaves is one [db_step] away. *)
Lemma serve_db_step rt req s d : db_step d (db_after (handle rt req s d)).
Proof.
  unfold serve. destruct rt; unfold dispatch.
  - (* register *)
    unfold register. destruct (method req); [constructor|].
    destruct (negb _ || negb _) eqn:Hblank; [constructor|].
    apply orb_false_elim in Hblank as [Hn%negb_false_iff Hp%negb_false_iff].
    unfold User_query_filter_by_username_first, db_session_add_user.
    run_monad. simpl.
    destruct (list_find _ (users d)) as [[h u]|] eqn:E; simpl; [constructor|].
    apply list_find_None in E. rewrite Forall_forall in E.
    apply step_register; [by apply str_truthy_true|apply strip_idemp|done].
  - (* login *)
    unfold login. destruct (method req); [constructor|].
    unfold User_query_filter_by_username_first. run_monad. simpl.
    destruct (list_find _ (users d)) as [[h u]|]; simpl; [|constructor].
    destruct (check_password_hash _ _); constructor.
  - (* logout *)
    destruct (method req); constructor.
  - (* / *)
    pose proof (dashboard_db_step req s d) as H. unfold start in H.
    destruct (method req); by destruct (dashboard req _).
  - (* /dashboard *)
    pose proof (dashboard_db_step req s d) as H. unfold start in H.
    destruct (method req); by destruct (dashboard req _).
  - (* /add_chore *)
    unfold add_chore, login_required, add_chore_view, Chore_query_all,
      db_session_add_chore.
    run_monad. simpl.
    destruct (s !! "user_id"); simpl; [|destruct (method req); constructor].
    destruct (method req); simpl; [constructor|].
    destruct (float_of_str _) as [v|]; simpl; [|constructor].
    destruct (str_truthy _) eqn:Hn; simpl; [|constructor].
    destruct (sqlite_real v) as [stored|]; simpl; [|constructor].
    apply step_add_chore. by apply str_truthy_true.
  - (* /delete_chore/<id> *)
    destruct (method req); [|constructor].
    unfold delete_chore, login_required, delete_chore_view,
      Chore_query_get_or_404, db_session_delete_chore.
    run_monad. simpl.
    destruct (s !! "user_id"); simpl; [|constructor].
    destruct (list_find _ (chores d)) as [[h c]|] eqn:E; simpl;
      [|destruct (sqlite_int _); constructor].
    by eapply step_delete_chore.
Qed.

(** Every reachable database is well formed. *)
Lemma reachable_wf d : reached d → wf_db d.
Proof.
  induction 1 as [|d rt req s _ IH]; [apply wf_empty_db|].
  eapply db_step_wf; [done|]. apply serve_db_step.
Qed.

End Steps.

Section Extras.

Variable float_of_str : string → option float.
Variable generate_password_hash : string → string → string.
Variable check_password_hash : string → string → bool.

Local Abbreviation handle :=
  (serve float_of_str generate_password_hash check_password_hash).
Local Abbreviation reached :=
  (reachable float_of_str generate_password_hash check_password_hash).

(** ** The login gate, logout and the methods of a route *)

(** X1: /add_chore (GET or POST) and a GET of /delete_chore/<id> from a
    session without user_id are redirected to the login page; no database
    operation is performed, nothing is flashed, and the database and the
    session are as before. *)
Theorem X1_chore_routes_require_login rt req s d :
  rt = route_add_chore ∨ (∃ i, rt = route_delete_chore i ∧ method req = GET) →
  s !! "user_id" = None →
  let o := serve float_of_str generate_password_hash check_password_hash
             rt req s d in
  response o = Redirect302 ep_login
  ∧ db_ops o = [] ∧ flashed o = []
  ∧ db_after o = d ∧ session_after o = s.
Proof.
  intros Hrt Hs o. subst o. unfold serve, dispatch.
  destruct Hrt as [->|(i & -> & ->)].
  - unfold add_chore, login_required. run_monad. simpl. rewrite Hs.
    by destruct (method req).
  - unfold delete_chore, login_required. run_monad. simpl. by rewrite Hs.
Qed.

(** X2: a GET of /logout empties the session, whatever it held, flashes one
    message and redirects to the login page without touching the database;
    with the session it leaves, every request to /, /dashboard or
    /add_chore is redirected to the login page. *)
Theorem X2_logout_clears_session req s d :
  method req = GET →
  let o := serve float_of_str generate_password_hash check_password_hash
             route_logout req s d in
  response o = Redirect302 ep_login
  ∧ session_after o = ∅
  ∧ flashed o = ["You have been logged out."]
  ∧ db_ops o = [] ∧ db_after o = d
  ∧ ∀ rt req',
      rt = route_index ∨ rt = route_dashboard ∨ rt = route_add_chore →
      response (handle rt req' (session_after o) d) = Redirect302 ep_login.
Proof.
  intros Hm o. subst o.
  assert (handle route_logout req s d
          = mkOutcome (Redirect302 ep_login) d ∅
              ["You have been logged out."] []) as ->.
  { unfold serve, dispatch, logout. by rewrite Hm. }
  simpl. split_and!; [done..|].
  intros rt req' Hrt. unfold serve, dispatch, dashboard, add_chore,
    login_required. run_monad. simpl.
  destruct Hrt as [->|[->| ->]]; by destruct (method req').
Qed.

(** X3: /logout and /delete_chore/<id> answer GET only: a POST gets 405,
    the session is not cleared, no chore is deleted, and no database
    operation is performed. *)
Theorem X3_post_not_allowed rt req s d :
  rt = route_logout ∨ (∃ i, rt = route_delete_chore i) →
  method req = POST →
  let o := serve float_of_str generate_password_hash check_password_hash
             rt req s d in
  response o = MethodNotAllowed405
  ∧ db_ops o = [] ∧ flashed o = []
  ∧ db_after o = d ∧ session_after o = s.
Proof.
  intros Hrt Hm o. subst o. unfold serve, dispatch.
  destruct Hrt as [->|[i ->]]; by rewrite Hm.
Qed.

(** ** Registration and login, continued *)

(** X4: a POST to /register whose username field is missing or all
    whitespace, or whose password is missing or empty, is sent back to the
    registration form with the message that both are required; the database
    is not even queried. *)
Theorem X4_register_rejects_blank req s d :
  method req = POST →
  Forall (λ a, isspace a = true)
    (String.list_ascii_of_string (form_get_default (form req) "username" ""))
  ∨ form_get_default (form req) "password" "" = "" →
  let o := serve float_of_str generate_password_hash check_password_hash
             route_register req s d in
  response o = Redirect302 ep_register
  ∧ flashed o = ["Both username and password are required."]
  ∧ db_ops o = [] ∧ db_after o = d ∧ session_after o = s.
Proof.
  intros Hm Hblank o. subst o. unfold serve, dispatch, register. rewrite Hm.
  assert (negb (str_truthy (strip (form_get_default (form req) "username" "")))
          || negb (str_truthy (form_get_default (form req) "password" ""))
          = true) as ->; [|done].
  destruct Hblank as [Hu%strip_whitespace| ->]; [by rewrite Hu|].
  apply orb_true_r.
Qed.

(** X5: registering and then logging in.  If the hash that
    [generate_password_hash] makes of a password verifies against that
    password, then after a successful registration a POST to /login with a
    username that strips to the same name and with the same password
    redirects to the dashboard and stores the id of the row that
    registration appended under session["user_id"]. *)
Theorem X5_register_then_login reg log s s' d :
  (∀ slt pw, check_password_hash (generate_password_hash slt pw) pw = true) →
  method reg = POST →
  method log = POST →
  let name := strip (form_get_default (form reg) "username" "") in
  let password := form_get_default (form reg) "password" "" in
  name ≠ "" →
  password ≠ "" →
  (∀ u, u ∈ users d → User.username u ≠ name) →
  strip (form_get_default (form log) "username" "") = name →
  form_get_default (form log) "password" "" = password →
  let d1 := db_after (serve float_of_str generate_password_hash
                        check_password_hash route_register reg s d) in
  ∃ u,
    users d1 = users d ++ [u]
    ∧ User.username u = name
    ∧ response (handle route_login log s' d1) = Redirect302 ep_dashboard
    ∧ session_after (handle route_login log s' d1)
      = <["user_id" := User.id u]> s'.
Proof.
  intros Hhash Hmr Hml name password Hn Hp Hfree Hname Hpw d1.
  assert (d1 = mkDB (users d
                       ++ [User.mk (next_rowid (User.id <$> users d)) name
                             (generate_password_hash (salt reg) password)])
                 (chores d) (statuses d)) as ->.
  { subst d1. apply str_truthy_true in Hn, Hp.
    unfold serve, dispatch, register. rewrite Hmr. fold name password.
    rewrite Hn, Hp. simpl.
    unfold User_query_filter_by_username_first, db_session_add_user.
    run_monad. simpl.
    destruct (list_find _ (users d)) as [[h u]|] eqn:E; simpl; [|done].
    apply list_find_Some in E as (Hl & Hu & _).
    destruct (Hfree u); [by eapply list_elem_of_lookup_2|done]. }
  eexists. split; [reflexivity|]. split; [reflexivity|].
  unfold serve, dispatch, login. rewrite Hml, Hname, Hpw.
  unfold User_query_filter_by_username_first. run_monad. simpl.
  rewrite list_find_snoc.
  destruct (list_find _ (users d)) as [[h u]|] eqn:E.
  { apply list_find_Some in E as (Hl & Hu & _).
    destruct (Hfree u); [by eapply list_elem_of_lookup_2|done]. }
  rewrite decide_True by done. simpl. by rewrite Hhash.
Qed.

(** ** Invariants of the reachable databases *)

(** X6: in every reachable database the usernames are pairwise different,
    non-empty and free of surrounding whitespace. *)
Theorem X6_usernames_unique_nonempty d :
  reachable float_of_str generate_password_hash check_password_hash d →
  NoDup (User.username <$> users d)
  ∧ ∀ u, u ∈ users d →
      User.username u ≠ "" ∧ strip (User.username u) = User.username u.
Proof.
  intros [_ Huu Hun Hus _ _ _ _ _]%reachable_wf. split; [done|].
  rewrite Forall_forall in Hun, Hus. auto.
Qed.

(** X7: in every reachable database each status row refers to a user and
    to a chore that exist. *)
Theorem X7_status_rows_reference_existing d :
  reachable float_of_str generate_password_hash check_password_hash d →
  ∀ st, st ∈ statuses d →
    (∃ u, u ∈ users d ∧ User.id u = UserChoreStatus.user_id st)
    ∧ (∃ c, c ∈ chores d ∧ Chore.id c = UserChoreStatus.chore_id st).
Proof.
  intros [_ _ _ _ _ _ _ Hsu Hsc]%reachable_wf st Hst.
  rewrite Forall_forall in Hsu, Hsc. split.
  - destruct (proj1 (list_elem_of_fmap _ _ _) (Hsu st Hst)) as (u & ? & ?).
    eauto.
  - destruct (proj1 (list_elem_of_fmap _ _ _) (Hsc st Hst)) as (c & ? & ?).
    eauto.
Qed.

(** X8: in every reachable database every chore has a non-empty name. *)
Theorem X8_chore_names_nonempty d :
  reachable float_of_str generate_password_hash check_password_hash d →
  ∀ c, c ∈ chores d → Chore.name c ≠ "".
Proof.
  intros [_ _ _ _ _ Hcn _ _ _]%reachable_wf. by rewrite Forall_forall in Hcn.
Qed.

(** X9: no request removes or alters a user row: the User table after a
    request is the table before, or the table before with one row
    appended. *)
Theorem X9_users_only_appended rt req s d :
  let d' := db_after (serve float_of_str generate_password_hash
                        check_password_hash rt req s d) in
  users d' = users d ∨ ∃ u, users d' = users d ++ [u].
Proof.
  intros d'. subst d'. destruct (serve_db_step float_of_str
    generate_password_hash check_password_hash rt req s d); simpl; eauto.
Qed.

(** X10: in a reachable database a user logs in by typing the stored
    username: a POST to /login whose username field is the username of a
    user [u] and whose password verifies against [u]'s hash redirects to the
    dashboard and stores [u]'s id in the session. *)
Theorem X10_stored_username_logs_in req s d u :
  reachable float_of_str generate_password_hash check_password_hash d →
  method req = POST →
  u ∈ users d →
  form_get_default (form req) "username" "" = User.username u →
  check_password_hash (User.password_hash u)
    (form_get_default (form req) "password" "") = true →
  response (handle route_login req s d) = Redirect302 ep_dashboard
  ∧ session_after (handle route_login req s d) = <["user_id" := User.id u]> s.
Proof.
  intros [_ Huu _ Hus _ _ _ _ _]%reachable_wf Hm Hu Hname Hc.
  rewrite Forall_forall in Hus.
  destruct (find_user_by_name d (User.username u) u Huu Hu eq_refl) as [h E].
  unfold serve, dispatch, login. rewrite Hm, Hname, (Hus u Hu).
  unfold User_query_filter_by_username_first. run_monad. simpl.
  rewrite E. simpl. by rewrite Hc.
Qed.

(** ** Chore management, continued *)

(** What a successful POST to /add_chore leaves: the row holds the value as
    SQLite stores it. *)
Lemma serve_add_chore req s d v stored :
  method req = POST →
  is_Some (s !! "user_id") →
  float_of_str (strip (form_get_default (form req) "value" "")) = Some v →
  sqlite_real v = Some stored →
  strip (form_get_default (form req) "name" "") ≠ "" →
  handle route_add_chore req s d
  = mkOutcome (Redirect302 ep_add_chore)
      (mkDB (users d)
         (chores d ++ [Chore.mk (next_rowid (Chore.id <$> chores d))
                         (strip (form_get_default (form req) "name" ""))
                         stored])
         (statuses d))
      s ["Chore added successfully."] [INSERT TChore; COMMIT].
Proof.
  intros Hm [uid Hs] Hv Hst Hn%str_truthy_true.
  unfold serve, dispatch, add_chore, login_required, add_chore_view,
    db_session_add_chore.
  rewrite Hm, Hv, Hn, Hst. run_monad. simpl. by rewrite Hs.
Qed.

(** X11: a POST to /add_chore from a logged-in session, with a name that is
    not blank and a value that parses to a number SQLite stores (anything
    but NaN), appends one Chore row carrying the next row id, the stripped
    name and the value as stored (the parsed value, a zero losing its
    sign), changes nothing else, and a GET of /add_chore afterwards lists
    the chores that were there followed by the new one. *)
Theorem X11_add_chore_appends req get s s' d v stored :
  method req = POST →
  method get = GET →
  is_Some (s !! "user_id") →
  is_Some (s' !! "user_id") →
  float_of_str (strip (form_get_default (form req) "value" "")) = Some v →
  sqlite_real v = Some stored →
  strip (form_get_default (form req) "name" "") ≠ "" →
  let o := serve float_of_str generate_password_hash check_password_hash
             route_add_chore req s d in
  let new := Chore.mk (next_rowid (Chore.id <$> chores d))
               (strip (form_get_default (form req) "name" "")) stored in
  response o = Redirect302 ep_add_chore
  ∧ flashed o = ["Chore added successfully."]
  ∧ db_after o = mkDB (users d) (chores d ++ [new]) (statuses d)
  ∧ session_after o = s
  ∧ response (handle route_add_chore get s' (db_after o))
    = Rendered (add_chore_html (chores d ++ [new])).
Proof.
  intros Hm Hg Hs [uid' Hs'] Hv Hst Hn o new. subst o new.
  rewrite (serve_add_chore req s d v stored) by done. simpl.
  split_and!; [done..|].
  unfold serve, dispatch, add_chore, login_required, add_chore_view,
    Chore_query_all.
  rewrite Hg. run_monad. simpl. by rewrite Hs'.
Qed.

(** X12: a POST to /add_chore from a logged-in session whose value parses
    but whose name is missing or blank is sent back to the form with the
    message that the name is required, and no row is inserted. *)
Theorem X12_add_chore_requires_name req s d v :
  method req = POST →
  is_Some (s !! "user_id") →
  float_of_str (strip (form_get_default (form req) "value" "")) = Some v →
  strip (form_get_default (form req) "name" "") = "" →
  let o := serve float_of_str generate_password_hash check_password_hash
             route_add_chore req s d in
  response o = Redirect302 ep_add_chore
  ∧ flashed o = ["Chore name is required."]
  ∧ db_ops o = [] ∧ db_after o = d.
Proof.
  intros Hm [uid Hs] Hv Hn o. subst o.
  unfold serve, dispatch, add_chore, login_required, add_chore_view.
  rewrite Hm, Hv, Hn. run_monad. simpl. by rewrite Hs.
Qed.

Lemma delete_snoc {A} (l : list A) (x : A) : delete (length l) (l ++ [x]) = l.
Proof. induction l as [|y l IH]; simpl; [done|]. by rewrite IH. Qed.

(** X13: deleting the chore just added restores the database.  From a
    reachable database, a POST to /add_chore that adds a chore (a name that
    is not blank, a value that parses and is not NaN) followed by a GET of
    /delete_chore/<n> from a logged-in session, with [n] the id of the row
    that was appended, leaves exactly the database there was before the
    chore was added. *)
Theorem X13_add_then_delete_restores req del s s' d v stored :
  reachable float_of_str generate_password_hash check_password_hash d →
  method req = POST →
  method del = GET →
  is_Some (s !! "user_id") →
  is_Some (s' !! "user_id") →
  float_of_str (strip (form_get_default (form req) "value" "")) = Some v →
  sqlite_real v = Some stored →
  strip (form_get_default (form req) "name" "") ≠ "" →
  let d1 := db_after (handle route_add_chore req s d) in
  ∃ c,
    chores d1 = chores d ++ [c]
    ∧ Chore.value c = stored
    ∧ response (handle (route_delete_chore (Z.to_N (Chore.id c))) del s' d1)
      = Redirect302 ep_add_chore
    ∧ db_after (handle (route_delete_chore (Z.to_N (Chore.id c))) del s' d1)
      = d.
Proof.
  intros [_ _ _ _ [Hcs Hcp] _ _ _ Hsc]%reachable_wf Hm Hg Hs [uid' Hs'] Hv Hst
    Hn d1.
  subst d1. rewrite (serve_add_chore req s d v stored) by done. simpl.
  eexists. split; [reflexivity|]. split; [reflexivity|]. simpl.
  pose proof (next_rowid_pos _ Hcp) as Hpos.
  unfold serve, dispatch, delete_chore, login_required, delete_chore_view,
    Chore_query_get_or_404, db_session_delete_chore.
  rewrite Hg. run_monad. simpl. rewrite Hs'. simpl.
  rewrite Z2N.id by lia.
  set (i := next_rowid (Chore.id <$> chores d)) in *.
  assert (∀ x, x ∈ Chore.id <$> chores d → x ≠ i) as Hfresh.
  { intros x Hx%next_rowid_gt. fold i in Hx. lia. }
  rewrite list_find_snoc.
  destruct (list_find _ (chores d)) as [[h c]|] eqn:E.
  { apply list_find_Some in E as (Hl & Hi & _).
    destruct (Hfresh (Chore.id c)); [|done].
    apply list_elem_of_fmap_2. by eapply list_elem_of_lookup_2. }
  rewrite decide_True by done. simpl. split; [done|].
  rewrite delete_snoc, filter_keeps_all; [apply DB_eta|].
  eapply Forall_impl; [exact Hsc|]. intros st Hst'. by apply Hfresh.
Qed.

(** X14: deleting twice.  After a GET of /delete_chore/<i> from a logged-in
    session has removed the chore of id [i] (ids being unique), a second
    such request finds no chore and changes nothing: it is answered 404,
    [i] being an integer SQLite accepts, as the id of a stored row is (for
    an [i] past 2^63 the lookup itself would fail, and the answer be 500). *)
Theorem X14_delete_twice_not_found req req' s s' d (i : N) c :
  method req = GET →
  method req' = GET →
  is_Some (s !! "user_id") →
  is_Some (s' !! "user_id") →
  NoDup (Chore.id <$> chores d) →
  c ∈ chores d →
  Chore.id c = Z.of_N i →
  let d1 := db_after (serve float_of_str generate_password_hash
                        check_password_hash (route_delete_chore i) req s d) in
  response (handle (route_delete_chore i) req' s' d1)
  = (if sqlite_int (Z.of_N i) then NotFound404 else InternalServerError500)
  ∧ db_after (handle (route_delete_chore i) req' s' d1) = d1.
Proof.
  intros Hm Hm' [uid Hs] [uid' Hs'] Hnd Hc Hi d1.
  assert (chores d1 = filter (λ x, Chore.id x ≠ Z.of_N i) (chores d)) as Hd1.
  { subst d1.
    unfold serve, dispatch, delete_chore, login_required, delete_chore_view,
      Chore_query_get_or_404, db_session_delete_chore.
    rewrite Hm. run_monad. simpl. rewrite Hs. simpl.
    destruct (list_find _ (chores d)) as [[h c']|] eqn:E; simpl.
    - by apply (delete_found_filter Chore.id (Z.of_N i) (chores d) h c').
    - apply list_find_None in E. rewrite Forall_forall in E.
      by destruct (E c). }
  clearbody d1.
  unfold serve, dispatch, delete_chore, login_required, delete_chore_view,
    Chore_query_get_or_404.
  rewrite Hm'. run_monad. simpl. rewrite Hs'. simpl.
  destruct (list_find _ (chores d1)) as [[h c']|] eqn:E; simpl;
    [|by destruct (sqlite_int _)].
  apply list_find_Some in E as (Hl & Hi' & _).
  apply list_elem_of_lookup_2 in Hl. rewrite Hd1 in Hl.
  by apply list_elem_of_filter in Hl as [? _].
Qed.

(** ** Dashboard, continued *)

(** What a POST to the dashboard by a logged-in user leaves. *)
Lemma serve_dashboard_post rt req s d u :
  rt = route_index ∨ rt = route_dashboard →
  method req = POST →
  s !! "user_id" = Some (User.id u) →
  u ∈ users d →
  ∃ ops,
    handle rt req s d
    = mkOutcome (Redirect302 ep_dashboard)
        (mkDB (users d) (chores d)
           (upsert_all (User.id u) (today req) (form req) (chores d)
              (statuses d)))
        s ["Chore statuses updated."] ops.
Proof.
  intros Hrt Hm Hs Hu.
  destruct (dashboard_post_run req s d (User.id u) u Hm Hs Hu eq_refl)
    as [ops Hrun].
  exists ops. unfold serve, dispatch. unfold start in Hrun.
  destruct Hrt as [-> | ->]; destruct (method req); by rewrite Hrun.
Qed.

Lemma alter_fixed {A} (f : A → A) (l : list A) h x :
  l !! h = Some x → f x = x → alter f h l = l.
Proof.
  revert h. induction l as [|y l IH]; intros [|h]; simpl; [done..| |].
  - intros [= ->] ->. done.
  - intros Hl Hx. f_equal. by apply IH.
Qed.

Lemma set_flags_fixed r :
  UserChoreStatus.set_flags (flags r).1.1 (flags r).1.2 (flags r).2 r = r.
Proof. by destruct r. Qed.

(** A round that finds its row already carrying the flags changes nothing. *)
Lemma upsert_fixed u ch d l h r :
  first_row u ch d l = Some (h, r) → upsert u ch d (flags r) l = l.
Proof.
  intros E. unfold upsert. rewrite E.
  apply list_find_Some in E as (Hl & _ & _).
  apply (alter_fixed _ l h r Hl), set_flags_fixed.
Qed.

Lemma upsert_all_fixed u d f cs l :
  (∀ c, c ∈ cs →
     ∃ h r, first_row u (Chore.id c) d l = Some (h, r)
            ∧ flags r = submitted f (Chore.id c)) →
  upsert_all u d f cs l = l.
Proof.
  induction cs as [|c cs IH]; intros Hcs; [done|].
  rewrite upsert_all_cons.
  destruct (Hcs c) as (h & r & E & Hfl); [left|].
  rewrite <- Hfl, (upsert_fixed u (Chore.id c) d l h r E).
  apply IH. intros c' Hc'. apply Hcs. by right.
Qed.

(** X15: posting the dashboard form twice is posting it once.  For a
    logged-in user, a second POST with the same form on the same day leaves
    the database the first POST produced. *)
Theorem X15_dashboard_post_idempotent rt rt' req req' s s' d u :
  (rt = route_index ∨ rt = route_dashboard) →
  (rt' = route_index ∨ rt' = route_dashboard) →
  method req = POST →
  method req' = POST →
  form req' = form req →
  today req' = today req →
  s !! "user_id" = Some (User.id u) →
  s' !! "user_id" = Some (User.id u) →
  u ∈ users d →
  let d1 := db_after (serve float_of_str generate_password_hash
                        check_password_hash rt req s d) in
  db_after (handle rt' req' s' d1) = d1.
Proof.
  intros Hrt Hrt' Hm Hm' Hf Ht Hs Hs' Hu d1. subst d1.
  destruct (serve_dashboard_post rt req s d u Hrt Hm Hs Hu) as [ops ->].
  simpl.
  destruct (serve_dashboard_post rt' req' s'
              (mkDB (users d) (chores d)
                 (upsert_all (User.id u) (today req) (form req) (chores d)
                    (statuses d))) u Hrt' Hm' Hs' Hu) as [ops' ->].
  simpl. f_equal. rewrite Hf, Ht. apply upsert_all_fixed.
  intros c Hc.
  destruct (first_row_upsert_all_in (User.id u) (today req) (form req)
              (chores d) (statuses d) (Chore.id c))
    as (i & r & E & Hfl & _); [by apply list_elem_of_fmap_2|]. eauto.
Qed.

Lemma filter_alter_out {A} (P : A → Prop) `{!∀ x, Decision (P x)}
    (f : A → A) (l : list A) h x :
  l !! h = Some x → ¬ P x → ¬ P (f x) →
  filter P (alter f h l) = filter P l.
Proof.
  revert h. induction l as [|y l IH]; intros [|h]; csimpl; [done..| |].
  - intros [= ->] Hx Hfx. by rewrite !filter_cons_False.
  - intros Hl Hx Hfx. specialize (IH h Hl Hx Hfx).
    destruct (decide (P y)).
    + rewrite !filter_cons_True by done. by f_equal.
    + by rewrite !filter_cons_False.
Qed.

Lemma other_rows_upsert u ch d fl l :
  other_rows u d (upsert u ch d fl l) = other_rows u d l.
Proof.
  unfold other_rows, upsert.
  destruct (first_row u ch d l) as [[h r]|] eqn:E.
  - apply list_find_Some in E as (Hl & Hk & _).
    unfold UserChoreStatus.key in Hk. injection Hk as Hu _ Hd.
    apply (filter_alter_out _ _ l h r Hl); simpl; intros []; congruence.
  - rewrite filter_app, filter_cons_False, filter_nil, app_nil_r;
      [done|simpl; by intros []].
Qed.

Lemma other_rows_upsert_all u d f cs l :
  other_rows u d (upsert_all u d f cs l) = other_rows u d l.
Proof.
  revert l. induction cs as [|c cs IH]; intros l; [done|].
  by rewrite upsert_all_cons, IH, other_rows_upsert.
Qed.

(** X16: a POST to the dashboard by a logged-in user touches only that
    user's rows of that day: the status rows of other users or other days
    are the same rows in the same order, and the User and Chore tables are
    unchanged. *)
Theorem X16_dashboard_post_frame rt req s d u :
  rt = route_index ∨ rt = route_dashboard →
  method req = POST →
  s !! "user_id" = Some (User.id u) →
  u ∈ users d →
  let d1 := db_after (serve float_of_str generate_password_hash
                        check_password_hash rt req s d) in
  other_rows (User.id u) (today req) (statuses d1)
  = other_rows (User.id u) (today req) (statuses d)
  ∧ users d1 = users d ∧ chores d1 = chores d.
Proof.
  intros Hrt Hm Hs Hu d1. subst d1.
  destruct (serve_dashboard_post rt req s d u Hrt Hm Hs Hu) as [ops ->].
  simpl. split_and!; [|done..]. apply other_rows_upsert_all.
Qed.

(** What a GET of the dashboard by a logged-in user answers. *)
Lemma serve_dashboard_get rt req s d u :
  rt = route_index ∨ rt = route_dashboard →
  method req = GET →
  s !! "user_id" = Some (User.id u) →
  u ∈ users d →
  ∃ u' ops,
    handle rt req s d
    = mkOutcome
        (Rendered
           (dashboard_html (Some u') (chores d)
              (collect_all (User.id u) (today req) (statuses d) (chores d) ∅)
              (today req)))
        d s [] ops.
Proof.
  intros Hrt Hm Hs Hu.
  destruct (dashboard_get_run req s d (User.id u) u Hm Hs Hu eq_refl)
    as (u' & ops & Hrun).
  exists u', ops. unfold serve, dispatch. unfold start in Hrun.
  destruct Hrt as [-> | ->]; destruct (method req); by rewrite Hrun.
Qed.

(** X17: what was posted is what the page shows.  After a POST to the
    dashboard by a logged-in user, a GET of the dashboard by that user on
    the same day gets, for every chore, a stored row (not an object made up
    for the page) whose flags are the ones computed from the posted form. *)
Theorem X17_dashboard_post_then_get rt rt' req get s s' d u :
  (rt = route_index ∨ rt = route_dashboard) →
  (rt' = route_index ∨ rt' = route_dashboard) →
  method req = POST →
  method get = GET →
  today get = today req →
  s !! "user_id" = Some (User.id u) →
  s' !! "user_id" = Some (User.id u) →
  u ∈ users d →
  let d1 := db_after (serve float_of_str generate_password_hash
                        check_password_hash rt req s d) in
  ∃ user sts,
    response (handle rt' get s' d1)
    = Rendered (dashboard_html user (chores d) sts (today req))
    ∧ ∀ c, c ∈ chores d →
        ∃ row, sts !! Chore.id c = Some (Persistent row)
               ∧ flags row = submitted (form req) (Chore.id c).
Proof.
  intros Hrt Hrt' Hm Hg Ht Hs Hs' Hu d1. subst d1.
  destruct (serve_dashboard_post rt req s d u Hrt Hm Hs Hu) as [ops ->].
  simpl.
  destruct (serve_dashboard_get rt' get s'
              (mkDB (users d) (chores d)
                 (upsert_all (User.id u) (today req) (form req) (chores d)
                    (statuses d))) u Hrt' Hg Hs' Hu) as (u' & ops' & ->).
  simpl. rewrite Ht. eexists _, _. split; [done|]. intros c Hc.
  assert (Chore.id c ∈ Chore.id <$> chores d) as Hin
    by (by apply list_elem_of_fmap_2).
  rewrite collect_all_lookup by done. unfold status_object.
  destruct (first_row_upsert_all_in (User.id u) (today req) (form req)
              (chores d) (statuses d) (Chore.id c) Hin)
    as (i & r & -> & Hfl & _).
  eauto.
Qed.


(** With unique ids, the query by id finds the user of that id. *)
Lemma find_user_by_id d u :
  NoDup (User.id <$> users d) →
  u ∈ users d →
  ∃ h, list_find (λ x, User.id x = User.id u) (users d) = Some (h, u).
Proof.
  intros Hnd Hu.
  destruct (list_find_elem_of (λ x, User.id x = User.id u) (users d) u)
    as [[h u'] E]; [done..|].
  exists h. rewrite E. do 2 f_equal.
  apply list_find_Some in E as (Hl & Hn' & _).
  apply (NoDup_fmap_eq User.id (users d)); [done| |done..].
  by eapply list_elem_of_lookup_2.
Qed.

(** X19: logging in and opening the dashboard.  In a reachable database,
    after a POST to /login that succeeds for user [u], a GET of the
    dashboard with the session that login left renders the dashboard page
    for [u] with all chores of the table. *)
Theorem X19_login_then_dashboard log get s d u :
  reachable float_of_str generate_password_hash check_password_hash d →
  method log = POST →
  method get = GET →
  u ∈ users d →
  form_get_default (form log) "username" "" = User.username u →
  check_password_hash (User.password_hash u)
    (form_get_default (form log) "password" "") = true →
  let s1 := session_after (handle route_login log s d) in
  ∃ sts,
    response (handle route_dashboard get s1 d)
    = Rendered (dashboard_html (Some u) (chores d) sts (today get)).
Proof.
  intros Hreach Hml Hmg Hu Hname Hc s1.
  pose proof (reachable_wf _ _ _ d Hreach) as [[_ Hui'] Huu _ Hus _ _ _ _ _].
  pose proof (reachable_wf _ _ _ d Hreach) as [Hui _ _ _ _ _ _ _ _].
  apply ids_ok_NoDup in Hui. rewrite Forall_forall in Hus.
  assert (s1 = <["user_id" := User.id u]> s) as ->.
  { subst s1.
    destruct (find_user_by_name d (User.username u) u Huu Hu eq_refl) as [h E].
    unfold serve, dispatch, login. rewrite Hml, Hname, (Hus u Hu).
    unfold User_query_filter_by_username_first. run_monad. simpl.
    rewrite E. simpl. by rewrite Hc. }
  destruct (find_user_by_id d u Hui Hu) as [h E].
  unfold serve, dispatch, dashboard, login_required, dashboard_view,
    User_query_get, Chore_query_all.
  rewrite Hmg. run_monad. simpl. rewrite !lookup_insert_eq. simpl.
  rewrite lookup_insert_eq. simpl. rewrite E. simpl.
  edestruct (dashboard_collect_loop_run get u (chores d)) as [ops ->].
  simpl. eauto.
Qed.

(** ** models.py: [__repr__] *)

Lemma str_app_inj_r (s1 s2 t : string) : s1 +:+ t = s2 +:+ t → s1 = s2.
Proof.
  intros H.
  assert (String.rev t +:+ String.rev s1 = String.rev t +:+ String.rev s2)
    as H' by (by rewrite <- !str_rev_app, H).
  apply String.app_inj in H'.
  by rewrite <- (str_rev_involutive s1), H', str_rev_involutive.
Qed.

(** X20: [repr] tells users apart by username: two User objects with the
    same [repr] have the same username. *)
Theorem X20_user_repr_injective u1 u2 :
  User_repr u1 = User_repr u2 → User.username u1 = User.username u2.
Proof.
  unfold User_repr. intros H%String.app_inj. by apply str_app_inj_r in H.
Qed.

(** ** What SQLite refuses *)

(** X21: an id SQLite cannot take.  A GET of /delete_chore/<i> from a
    logged-in session, with [i] past SQLite's integers (2^63 or more) and
    so the id of no chore, is answered 500 and not 404; the database and
    the session are as before and nothing is flashed. *)
Theorem X21_delete_chore_id_overflow req s d (i : N) :
  method req = GET →
  is_Some (s !! "user_id") →
  sqlite_int (Z.of_N i) = false →
  (∀ c, c ∈ chores d → Chore.id c ≠ Z.of_N i) →
  let o := serve float_of_str generate_password_hash check_password_hash
             (route_delete_chore i) req s d in
  response o = InternalServerError500
  ∧ db_after o = d ∧ session_after o = s ∧ flashed o = [].
Proof.
  intros Hm [uid Hs] Hi Hnone o. subst o.
  unfold serve, dispatch, delete_chore, login_required, delete_chore_view,
    Chore_query_get_or_404.
  rewrite Hm. run_monad. simpl. rewrite Hs. simpl.
  destruct (list_find _ (chores d)) as [[h c]|] eqn:E; simpl.
  - apply list_find_Some in E as (Hl & Hc & _).
    destruct (Hnone c); [by eapply list_elem_of_lookup_2|done].
  - by rewrite Hi.
Qed.

(** X22: a value that is not a number.  A POST to /add_chore from a
    logged-in session, with a name that is not blank and a value that
    [float] reads as a NaN, is answered 500: the column refuses the row,
    so that no chore is added, nothing is flashed, and the database and the
    session are as before. *)
Theorem X22_add_chore_nan_refused req s d :
  method req = POST →
  is_Some (s !! "user_id") →
  float_of_str (strip (form_get_default (form req) "value" "")) = Some S754_nan →
  strip (form_get_default (form req) "name" "") ≠ "" →
  let o := serve float_of_str generate_password_hash check_password_hash
             route_add_chore req s d in
  response o = InternalServerError500
  ∧ db_after o = d ∧ session_after o = s ∧ flashed o = [].
Proof.
  intros Hm [uid Hs] Hv Hn%str_truthy_true o. subst o.
  unfold serve, dispatch, add_chore, login_required, add_chore_view,
    db_session_add_chore.
  rewrite Hm, Hv, Hn. run_monad. simpl. by rewrite Hs.
Qed.

End Extras.

(** * The further properties on the sample data *)

(** [history_db] is reachable. *)
Ltac reach_history :=
  unfold history_db, demo_serve; do 4 apply reachable_serve;
  apply reachable_empty.

Lemma X1_witness :
  (route_add_chore = route_add_chore
   ∨ ∃ i, route_add_chore = route_delete_chore i ∧ method add_sweeping = GET)
  ∧ (∅ : gmap string Z) !! "user_id" = None
  ∧ response (demo_serve route_add_chore add_sweeping ∅ sample_db)
    = Redirect302 ep_login
  ∧ db_after (demo_serve route_add_chore add_sweeping ∅ sample_db) = sample_db.
Proof.
  assert ((∅ : gmap string Z) !! "user_id" = None) as Hs by done.
  destruct (X1_chore_routes_require_login float_of_digits
              demo_generate_password_hash demo_check_password_hash
              route_add_chore add_sweeping ∅ sample_db (or_introl eq_refl) Hs)
    as (Hr & _ & _ & Hd & _).
  split_and!; [by left|done..].
Defined.

Lemma X2_witness :
  method get_page = GET
  ∧ session_after (demo_serve route_logout get_page alice_session sample_db) = ∅
  ∧ response
      (demo_serve route_dashboard get_page
         (session_after
            (demo_serve route_logout get_page alice_session sample_db))
         sample_db)
    = Redirect302 ep_login.
Proof.
  destruct (X2_logout_clears_session float_of_digits
              demo_generate_password_hash demo_check_password_hash
              get_page alice_session sample_db eq_refl)
    as (_ & Hs & _ & _ & _ & Hnext).
  split_and!; [done..|].
  apply (Hnext route_dashboard get_page). right. by left.
Defined.

Lemma X3_witness :
  (route_delete_chore 1 = route_logout
   ∨ ∃ i, route_delete_chore 1 = route_delete_chore i)
  ∧ method tick_dishes = POST
  ∧ response (demo_serve (route_delete_chore 1) tick_dishes alice_session
                sample_db) = MethodNotAllowed405
  ∧ db_after (demo_serve (route_delete_chore 1) tick_dishes alice_session
                sample_db) = sample_db.
Proof.
  assert (route_delete_chore 1 = route_logout
          ∨ ∃ i, route_delete_chore 1 = route_delete_chore i) as Hrt
    by (right; by exists 1%N).
  destruct (X3_post_not_allowed float_of_digits
              demo_generate_password_hash demo_check_password_hash
              (route_delete_chore 1) tick_dishes alice_session sample_db
              Hrt eq_refl)
    as (Hr & _ & _ & Hd & _).
  split_and!; done.
Defined.

Lemma X4_witness :
  method register_blank = POST
  ∧ (Forall (λ a, isspace a = true)
       (String.list_ascii_of_string
          (form_get_default (form register_blank) "username" ""))
     ∨ form_get_default (form register_blank) "password" "" = "")
  ∧ response (demo_serve route_register register_blank ∅ sample_db)
    = Redirect302 ep_register
  ∧ db_ops (demo_serve route_register register_blank ∅ sample_db) = []
  ∧ db_after (demo_serve route_register register_blank ∅ sample_db)
    = sample_db.
Proof.
  assert (Forall (λ a, isspace a = true)
            (String.list_ascii_of_string
               (form_get_default (form register_blank) "username" ""))
          ∨ form_get_default (form register_blank) "password" "" = "") as Hb.
  { left. vm_compute. repeat constructor. }
  destruct (X4_register_rejects_blank float_of_digits
              demo_generate_password_hash demo_check_password_hash
              register_blank ∅ sample_db eq_refl Hb)
    as (Hr & _ & Hops & Hd & _).
  split_and!; done.
Defined.

Lemma X5_witness :
  (∀ slt pw,
     plain_check_password_hash (plain_generate_password_hash slt pw) pw = true)
  ∧ method register_carol = POST
  ∧ method login_carol_spaced = POST
  ∧ strip (form_get_default (form register_carol) "username" "") ≠ ""
  ∧ form_get_default (form register_carol) "password" "" ≠ ""
  ∧ (∀ u, u ∈ users sample_db →
       User.username u
       ≠ strip (form_get_default (form register_carol) "username" ""))
  ∧ strip (form_get_default (form login_carol_spaced) "username" "")
    = strip (form_get_default (form register_carol) "username" "")
  ∧ form_get_default (form login_carol_spaced) "password" ""
    = form_get_default (form register_carol) "password" ""
  ∧ response
      (plain_serve route_login login_carol_spaced ∅
         (db_after (plain_serve route_register register_carol ∅ sample_db)))
    = Redirect302 ep_dashboard
  ∧ session_after
      (plain_serve route_login login_carol_spaced ∅
         (db_after (plain_serve route_register register_carol ∅ sample_db)))
    = <["user_id" := 3]> ∅.
Proof.
  assert (∀ slt pw,
            plain_check_password_hash (plain_generate_password_hash slt pw) pw
            = true) as Hhash.
  { intros slt pw. unfold plain_check_password_hash,
      plain_generate_password_hash. by apply bool_decide_eq_true. }
  assert (strip (form_get_default (form register_carol) "username" "") ≠ "")
    as Hn by (by vm_compute).
  assert (form_get_default (form register_carol) "password" "" ≠ "")
    as Hp by (by vm_compute).
  assert (∀ u, u ∈ users sample_db →
            User.username u
            ≠ strip (form_get_default (form register_carol) "username" ""))
    as Hfree.
  { intros u [->|[->|[]%not_elem_of_nil]%elem_of_cons]%elem_of_cons;
      by vm_compute. }
  assert (strip (form_get_default (form login_carol_spaced) "username" "")
          = strip (form_get_default (form register_carol) "username" ""))
    as Hname by (by vm_compute).
  destruct (X5_register_then_login float_of_digits
              plain_generate_password_hash plain_check_password_hash
              register_carol login_carol_spaced ∅ ∅ sample_db
              Hhash eq_refl eq_refl Hn Hp Hfree Hname eq_refl)
    as (u & Hus & _ & Hr & Hs).
  injection Hus as <-.
  split_and!; done.
Defined.

Lemma X6_witness :
  reachable float_of_digits demo_generate_password_hash
    demo_check_password_hash history_db
  ∧ NoDup (User.username <$> users history_db)
  ∧ ∀ u, u ∈ users history_db →
      User.username u ≠ "" ∧ strip (User.username u) = User.username u.
Proof.
  assert (reachable float_of_digits demo_generate_password_hash
            demo_check_password_hash history_db) as H by reach_history.
  split; [exact H|].
  exact (X6_usernames_unique_nonempty float_of_digits
           demo_generate_password_hash demo_check_password_hash history_db H).
Defined.

Lemma X7_witness :
  reachable float_of_digits demo_generate_password_hash
    demo_check_password_hash history_db
  ∧ ∀ st, st ∈ statuses history_db →
      (∃ u, u ∈ users history_db ∧ User.id u = UserChoreStatus.user_id st)
      ∧ (∃ c, c ∈ chores history_db
              ∧ Chore.id c = UserChoreStatus.chore_id st).
Proof.
  assert (reachable float_of_digits demo_generate_password_hash
            demo_check_password_hash history_db) as H by reach_history.
  split; [exact H|].
  exact (X7_status_rows_reference_existing float_of_digits
           demo_generate_password_hash demo_check_password_hash history_db H).
Defined.

Lemma X8_witness :
  reachable float_of_digits demo_generate_password_hash
    demo_check_password_hash history_db
  ∧ ∀ c, c ∈ chores history_db → Chore.name c ≠ "".
Proof.
  assert (reachable float_of_digits demo_generate_password_hash
            demo_check_password_hash history_db) as H by reach_history.
  split; [exact H|].
  exact (X8_chore_names_nonempty float_of_digits
           demo_generate_password_hash demo_check_password_hash history_db H).
Defined.

Lemma X10_witness :
  reachable float_of_digits demo_generate_password_hash
    demo_check_password_hash history_db
  ∧ method login_carol = POST
  ∧ carol ∈ users history_db
  ∧ form_get_default (form login_carol) "username" "" = User.username carol
  ∧ demo_check_password_hash (User.password_hash carol)
      (form_get_default (form login_carol) "password" "") = true
  ∧ response (demo_serve route_login login_carol ∅ history_db)
    = Redirect302 ep_dashboard
  ∧ session_after (demo_serve route_login login_carol ∅ history_db)
    = <["user_id" := User.id carol]> ∅.
Proof.
  assert (reachable float_of_digits demo_generate_password_hash
            demo_check_password_hash history_db) as H by reach_history.
  assert (carol ∈ users history_db) as Hu
    by (vm_compute; apply list_elem_of_here).
  destruct (X10_stored_username_logs_in float_of_digits
              demo_generate_password_hash demo_check_password_hash
              login_carol ∅ history_db carol H eq_refl Hu eq_refl eq_refl)
    as [Hr Hs].
  split_and!; done.
Defined.

Lemma X11_witness :
  method add_sweeping = POST
  ∧ method get_page = GET
  ∧ is_Some (alice_session !! "user_id")
  ∧ float_of_digits (strip (form_get_default (form add_sweeping) "value" ""))
    = Some (S754_finite false 6755399441055744 (-51))
  ∧ sqlite_real (S754_finite false 6755399441055744 (-51))
    = Some (S754_finite false 6755399441055744 (-51))
  ∧ strip (form_get_default (form add_sweeping) "name" "") ≠ ""
  ∧ db_after (demo_serve route_add_chore add_sweeping alice_session sample_db)
    = mkDB (users sample_db)
        [dishes; laundry;
         Chore.mk 3 "sweeping" (S754_finite false 6755399441055744 (-51))]
        (statuses sample_db)
  ∧ response
      (demo_serve route_add_chore get_page alice_session
         (db_after
            (demo_serve route_add_chore add_sweeping alice_session sample_db)))
    = Rendered
        (add_chore_html
           [dishes; laundry;
            Chore.mk 3 "sweeping" (S754_finite false 6755399441055744 (-51))]).
Proof.
  assert (is_Some (alice_session !! "user_id")) as Hs by (by eexists).
  assert (float_of_digits
            (strip (form_get_default (form add_sweeping) "value" ""))
          = Some (S754_finite false 6755399441055744 (-51))) as Hv
    by (by vm_compute).
  assert (strip (form_get_default (form add_sweeping) "name" "") ≠ "") as Hn
    by (by vm_compute).
  destruct (X11_add_chore_appends float_of_digits
              demo_generate_password_hash demo_check_password_hash
              add_sweeping get_page alice_session alice_session sample_db _
              _ eq_refl eq_refl Hs Hs Hv eq_refl Hn)
    as (_ & _ & Hd & _ & Hpage).
  split_and!; [done..| |]; [exact Hd|exact Hpage].
Defined.

Lemma X12_witness :
  method add_no_name = POST
  ∧ is_Some (alice_session !! "user_id")
  ∧ float_of_digits (strip (form_get_default (form add_no_name) "value" ""))
    = Some (S754_finite false 6755399441055744 (-51))
  ∧ strip (form_get_default (form add_no_name) "name" "") = ""
  ∧ response (demo_serve route_add_chore add_no_name alice_session sample_db)
    = Redirect302 ep_add_chore
  ∧ flashed (demo_serve route_add_chore add_no_name alice_session sample_db)
    = ["Chore name is required."]
  ∧ db_after (demo_serve route_add_chore add_no_name alice_session sample_db)
    = sample_db.
Proof.
  assert (is_Some (alice_session !! "user_id")) as Hs by (by eexists).
  assert (float_of_digits
            (strip (form_get_default (form add_no_name) "value" ""))
          = Some (S754_finite false 6755399441055744 (-51))) as Hv
    by (by vm_compute).
  assert (strip (form_get_default (form add_no_name) "name" "") = "") as Hn
    by (by vm_compute).
  destruct (X12_add_chore_requires_name float_of_digits
              demo_generate_password_hash demo_check_password_hash
              add_no_name alice_session sample_db _ eq_refl Hs Hv Hn)
    as (Hr & Hf & _ & Hd).
  split_and!; done.
Defined.

Lemma X13_witness :
  reachable float_of_digits demo_generate_password_hash
    demo_check_password_hash history_db
  ∧ method add_sweeping = POST
  ∧ method get_page = GET
  ∧ is_Some (alice_session !! "user_id")
  ∧ float_of_digits (strip (form_get_default (form add_sweeping) "value" ""))
    = Some (S754_finite false 6755399441055744 (-51))
  ∧ sqlite_real (S754_finite false 6755399441055744 (-51))
    = Some (S754_finite false 6755399441055744 (-51))
  ∧ strip (form_get_default (form add_sweeping) "name" "") ≠ ""
  ∧ db_after
      (demo_serve (route_delete_chore 2) get_page alice_session
         (db_after
            (demo_serve route_add_chore add_sweeping alice_session history_db)))
    = history_db.
Proof.
  assert (reachable float_of_digits demo_generate_password_hash
            demo_check_password_hash history_db) as H by reach_history.
  assert (is_Some (alice_session !! "user_id")) as Hs by (by eexists).
  assert (float_of_digits
            (strip (form_get_default (form add_sweeping) "value" ""))
          = Some (S754_finite false 6755399441055744 (-51))) as Hv
    by (by vm_compute).
  assert (strip (form_get_default (form add_sweeping) "name" "") ≠ "") as Hn
    by (by vm_compute).
  destruct (X13_add_then_delete_restores float_of_digits
              demo_generate_password_hash demo_check_password_hash
              add_sweeping get_page alice_session alice_session history_db _
              _ H eq_refl eq_refl Hs Hs Hv eq_refl Hn)
    as (c & Hcs & _ & _ & Hd).
  assert (c = Chore.mk 2 "sweeping" (S754_finite false 6755399441055744 (-51)))
    as -> by (vm_compute in Hcs; by injection Hcs).
  split_and!; [done..|exact Hd].
Defined.

Lemma X14_witness :
  method get_page = GET
  ∧ is_Some (alice_session !! "user_id")
  ∧ NoDup (Chore.id <$> chores sample_db)
  ∧ dishes ∈ chores sample_db
  ∧ Chore.id dishes = Z.of_N 1
  ∧ response
      (demo_serve (route_delete_chore 1) get_page alice_session
         (db_after
            (demo_serve (route_delete_chore 1) get_page alice_session
               sample_db)))
    = NotFound404.
Proof.
  assert (is_Some (alice_session !! "user_id")) as Hs by (by eexists).
  assert (NoDup (Chore.id <$> chores sample_db)) as Hnd by by_evaluation.
  assert (dishes ∈ chores sample_db) as Hc by apply list_elem_of_here.
  destruct (X14_delete_twice_not_found float_of_digits
              demo_generate_password_hash demo_check_password_hash
              get_page get_page alice_session alice_session sample_db 1 dishes
              eq_refl eq_refl Hs Hs Hnd Hc eq_refl)
    as [Hr _].
  split_and!; [done..|exact Hr].
Defined.

Lemma X15_witness :
  (route_dashboard = route_index ∨ route_dashboard = route_dashboard)
  ∧ method tick_dishes = POST
  ∧ alice_session !! "user_id" = Some (User.id alice)
  ∧ alice ∈ users sample_db
  ∧ db_after
      (demo_serve route_index tick_dishes alice_session
         (db_after
            (demo_serve route_dashboard tick_dishes alice_session sample_db)))
    = db_after (demo_serve route_dashboard tick_dishes alice_session sample_db).
Proof.
  assert (alice ∈ users sample_db) as Hu by apply list_elem_of_here.
  split_and!; [by right|done..|].
  exact (X15_dashboard_post_idempotent float_of_digits
           demo_generate_password_hash demo_check_password_hash
           route_dashboard route_index tick_dishes tick_dishes
           alice_session alice_session sample_db alice
           (or_intror eq_refl) (or_introl eq_refl) eq_refl eq_refl eq_refl
           eq_refl eq_refl eq_refl Hu).
Defined.

Lemma X16_witness :
  (route_dashboard = route_index ∨ route_dashboard = route_dashboard)
  ∧ method tick_dishes = POST
  ∧ alice_session !! "user_id" = Some (User.id alice)
  ∧ alice ∈ users sample_db
  ∧ other_rows (User.id alice) (today tick_dishes)
      (statuses
         (db_after
            (demo_serve route_dashboard tick_dishes alice_session sample_db)))
    = [bob_laundry]
  ∧ users (db_after
             (demo_serve route_dashboard tick_dishes alice_session sample_db))
    = users sample_db.
Proof.
  assert (alice ∈ users sample_db) as Hu by apply list_elem_of_here.
  destruct (X16_dashboard_post_frame float_of_digits
              demo_generate_password_hash demo_check_password_hash
              route_dashboard tick_dishes alice_session sample_db alice
              (or_intror eq_refl) eq_refl eq_refl Hu)
    as (Hrows & Hus & _).
  split_and!; [by right|done..| |exact Hus].
  etrans; [exact Hrows|]. by vm_compute.
Defined.

Lemma X17_witness :
  (route_dashboard = route_index ∨ route_dashboard = route_dashboard)
  ∧ method tick_dishes = POST
  ∧ method get_page_100 = GET
  ∧ today get_page_100 = today tick_dishes
  ∧ alice_session !! "user_id" = Some (User.id alice)
  ∧ alice ∈ users sample_db
  ∧ dishes ∈ chores sample_db
  ∧ ∃ user sts,
      response
        (demo_serve route_dashboard get_page_100 alice_session
           (db_after
              (demo_serve route_dashboard tick_dishes alice_session sample_db)))
      = Rendered
          (dashboard_html user (chores sample_db) sts (today tick_dishes))
      ∧ ∃ row, sts !! Chore.id dishes = Some (Persistent row)
               ∧ flags row = (true, false, false).
Proof.
  assert (alice ∈ users sample_db) as Hu by apply list_elem_of_here.
  assert (dishes ∈ chores sample_db) as Hc by apply list_elem_of_here.
  destruct (X17_dashboard_post_then_get float_of_digits
              demo_generate_password_hash demo_check_password_hash
              route_dashboard route_dashboard tick_dishes get_page_100
              alice_session alice_session sample_db alice
              (or_intror eq_refl) (or_intror eq_refl) eq_refl eq_refl eq_refl
              eq_refl eq_refl Hu)
    as (user & sts & Hr & Hrows).
  destruct (Hrows dishes Hc) as (row & Hrow & Hfl).
  split_and!; [by right|done..|].
  exists user, sts. split; [exact Hr|].
  exists row. split; [exact Hrow|]. etrans; [exact Hfl|]. by vm_compute.
Defined.


Lemma X19_witness :
  reachable float_of_digits demo_generate_password_hash
    demo_check_password_hash history_db
  ∧ method login_carol = POST
  ∧ method get_page = GET
  ∧ carol ∈ users history_db
  ∧ form_get_default (form login_carol) "username" "" = User.username carol
  ∧ demo_check_password_hash (User.password_hash carol)
      (form_get_default (form login_carol) "password" "") = true
  ∧ ∃ sts,
      response
        (demo_serve route_dashboard get_page
           (session_after (demo_serve route_login login_carol ∅ history_db))
           history_db)
      = Rendered
          (dashboard_html (Some carol) (chores history_db) sts (today get_page)).
Proof.
  assert (reachable float_of_digits demo_generate_password_hash
            demo_check_password_hash history_db) as H by reach_history.
  assert (carol ∈ users history_db) as Hu
    by (vm_compute; apply list_elem_of_here).
  split_and!; [done..|].
  exact (X19_login_then_dashboard float_of_digits
           demo_generate_password_hash demo_check_password_hash
           login_carol get_page ∅ history_db carol H eq_refl eq_refl Hu
           eq_refl eq_refl).
Defined.

Lemma X20_witness :
  User_repr alice = User_repr (User.mk 9 "alice" "other")
  ∧ User.username alice = User.username (User.mk 9 "alice" "other").
Proof.
  split; [done|].
  exact (X20_user_repr_injective alice (User.mk 9 "alice" "other") eq_refl).
Defined.

Lemma X21_witness :
  method get_page = GET
  ∧ is_Some (alice_session !! "user_id")
  ∧ sqlite_int (Z.of_N huge_id) = false
  ∧ (∀ c, c ∈ chores sample_db → Chore.id c ≠ Z.of_N huge_id)
  ∧ response
      (demo_serve (route_delete_chore huge_id) get_page alice_session sample_db)
    = InternalServerError500
  ∧ db_after
      (demo_serve (route_delete_chore huge_id) get_page alice_session sample_db)
    = sample_db.
Proof.
  assert (is_Some (alice_session !! "user_id")) as Hs by (by eexists).
  assert (∀ c, c ∈ chores sample_db → Chore.id c ≠ Z.of_N huge_id) as Hnone.
  { intros c [->|[->|[]%not_elem_of_nil]%elem_of_cons]%elem_of_cons; done. }
  destruct (X21_delete_chore_id_overflow float_of_digits
              demo_generate_password_hash demo_check_password_hash
              get_page alice_session sample_db huge_id eq_refl Hs eq_refl Hnone)
    as (Hr & Hd & _ & _).
  split_and!; [done..|exact Hr|exact Hd].
Defined.

Lemma X22_witness :
  method add_nan_value = POST
  ∧ is_Some (alice_session !! "user_id")
  ∧ float_of_digits_or_nan
      (strip (form_get_default (form add_nan_value) "value" ""))
    = Some S754_nan
  ∧ strip (form_get_default (form add_nan_value) "name" "") ≠ ""
  ∧ response
      (serve float_of_digits_or_nan demo_generate_password_hash
         demo_check_password_hash route_add_chore add_nan_value alice_session
         sample_db)
    = InternalServerError500
  ∧ db_after
      (serve float_of_digits_or_nan demo_generate_password_hash
         demo_check_password_hash route_add_chore add_nan_value alice_session
         sample_db)
    = sample_db.
Proof.
  assert (is_Some (alice_session !! "user_id")) as Hs by (by eexists).
  assert (float_of_digits_or_nan
            (strip (form_get_default (form add_nan_value) "value" ""))
          = Some S754_nan) as Hv by (by vm_compute).
  assert (strip (form_get_default (form add_nan_value) "name" "") ≠ "") as Hn
    by (by vm_compute).
  destruct (X22_add_chore_nan_refused float_of_digits_or_nan
              demo_generate_password_hash demo_check_password_hash
              add_nan_value alice_session sample_db eq_refl Hs Hv Hn)
    as (Hr & Hd & _ & _).
  split_and!; [done..|exact Hr|exact Hd].
Defined.
